(** * Metrics extraction of the textbook analyzer

    A shallow embedding of [site-metrics/advanced-metrics.py] (class
    [TextbookAnalyzer]), and after it of [site-metrics/get-ibook-metrics.py],
    of [infer_github_user_repo] of [site-tests/check-sites.py] and of
    [extract_site_data] of [site-tests/json-to-csv.py].

    Text is a [string]: a sequence of code points below 256, as returned
    by [f.read()] after decoding and newline translation.  The regular
    expressions of the source are kept as data ([regex]) and run by a
    backtracking matcher with the priorities of Python's [re] module.
    A repository is a tree of files and the result of loading
    [mkdocs.yml]; [exists], [is_dir] and [glob] raise nothing, as on a
    tree the process may read.  An exception is a value ([Raise]), and
    [try]/[except] is a case analysis on it.  The functions [main],
    which parse the command line and print, the requests over HTTP of the
    site tests and the writer of the CSV file are left out, and so is the
    count [file_count] of [_analyze_microsim_complexity], which is never
    read. *)

From Stdlib Require Import String Ascii List Arith Lia Bool ZArith Permutation.
From Stdlib Require Import DecimalString DecimalNat.
Import ListNotations.
Open Scope string_scope.
Open Scope list_scope.
Open Scope nat_scope.
Set Warnings "-register-all".

(** ** Characters and Python string methods *)

Module Str.

Definition nl : ascii := "010"%char.
Definition backslash : ascii := "092"%char.

(** String literals are written as in Python: [\n], [\t] and [\\] are
    escapes. *)
Fixpoint py (s : string) : string :=
  match s with
  | EmptyString => EmptyString
  | String a s' =>
      if Ascii.eqb a backslash then
        match s' with
        | String "n"%char t => String nl (py t)
        | String "t"%char t => String "009"%char (py t)
        | String "092"%char t => String backslash (py t)
        | _ => String a (py s')
        end
      else String a (py s')
  end.

(** [str.isspace] on one character ([Py_UNICODE_ISSPACE]), which is also what
    [\s] matches in a [str] pattern. *)
Definition isspace (a : ascii) : bool :=
  let n := nat_of_ascii a in
  ((9 <=? n) && (n <=? 13)) || ((28 <=? n) && (n <=? 32))
  || (n =? 133) || (n =? 160).

(** [[a-zA-Z0-9]] *)
Definition isalnum (a : ascii) : bool :=
  let n := nat_of_ascii a in
  ((48 <=? n) && (n <=? 57)) || ((65 <=? n) && (n <=? 90))
  || ((97 <=? n) && (n <=? 122)).

Definition is_empty (s : string) : bool :=
  match s with EmptyString => true | String _ _ => false end.

Fixpoint lstrip (s : string) : string :=
  match s with
  | EmptyString => EmptyString
  | String a s' => if isspace a then lstrip s' else s
  end.

Fixpoint rstrip (s : string) : string :=
  match s with
  | EmptyString => EmptyString
  | String a s' =>
      let r := rstrip s' in
      if is_empty r && isspace a then EmptyString else String a r
  end.

(** [s.strip()] *)
Definition strip (s : string) : string := rstrip (lstrip s).

(** [s.split()]: the maximal runs of non-whitespace characters; [w] is the
    run read so far. *)
Fixpoint split_from (w : string) (s : string) : list string :=
  match s with
  | EmptyString => if is_empty w then [] else [w]
  | String a s' =>
      if isspace a
      then (if is_empty w then [] else [w]) ++ split_from EmptyString s'
      else split_from (w ++ String a EmptyString)%string s'
  end.

Definition split (s : string) : list string := split_from EmptyString s.

(** [s.startswith(p)] *)
Fixpoint startswith (p s : string) : bool :=
  match p, s with
  | EmptyString, _ => true
  | String _ _, EmptyString => false
  | String a p', String b s' => Ascii.eqb b a && startswith p' s'
  end.

(** [s.endswith(p)]: [p] is what is left of [s] from some position on. *)
Fixpoint endswith (p s : string) : bool :=
  String.eqb s p
  || match s with
     | EmptyString => false
     | String _ s' => endswith p s'
     end.

(** [p in s] on strings: [p] starts at some position of [s]. *)
Fixpoint contains (p s : string) : bool :=
  startswith p s
  || match s with
     | EmptyString => false
     | String _ s' => contains p s'
     end.

(** [f.readlines()]: the lines of a text, each with its line break; a last
    line without a line break is a line too.  [cur] is the line read so
    far. *)
Fixpoint readlines_from (cur : string) (s : string) : list string :=
  match s with
  | EmptyString => if is_empty cur then [] else [cur]
  | String a s' =>
      if Ascii.eqb a nl
      then (cur ++ String a EmptyString)%string :: readlines_from EmptyString s'
      else readlines_from (cur ++ String a EmptyString)%string s'
  end.

Definition readlines (s : string) : list string :=
  readlines_from EmptyString s.

(** [s.split('\n')]: the pieces between line breaks.  A line break opens
    a new first piece; any other character joins the first piece of what
    follows. *)
Fixpoint split_nl (s : string) : list string :=
  match s with
  | EmptyString => [EmptyString]
  | String a s' =>
      if Ascii.eqb a nl then EmptyString :: split_nl s'
      else match split_nl s' with
           | l :: rest => String a l :: rest
           | [] => [String a EmptyString]
           end
  end.

End Str.

(** ** The fragment of [re] the analyzer uses *)

Module Re.

Import Str.

(** One-character classes. *)
Inductive cls : Type :=
| CAny                (* [\s\S] *)
| CDot                (* .  (no DOTALL: anything but a line break) *)
| CLit (a : ascii)    (* a literal character *)
| CNot (a : ascii)    (* [^a] *)
| CSpace              (* \s *)
| CNonSpace           (* \S *)
| CAlnum.             (* [a-zA-Z0-9] *)

Definition accepts (c : cls) (a : ascii) : bool :=
  match c with
  | CAny => true
  | CDot => negb (Ascii.eqb a nl)
  | CLit b => Ascii.eqb a b
  | CNot b => negb (Ascii.eqb a b)
  | CSpace => isspace a
  | CNonSpace => negb (isspace a)
  | CAlnum => isalnum a
  end.

Inductive quant : Type :=
| Once        (* c   *)
| Opt         (* c?  *)
| Star        (* c*  *)
| Plus        (* c+  *)
| StarLazy.   (* c*? *)

Inductive item : Type :=
| Chr (c : cls) (q : quant)
| BOT     (* \A *)
| BOL     (* ^ under re.MULTILINE *)
| EOL.    (* $ under re.MULTILINE *)

Definition regex : Type := list item.

(** A literal string as a pattern. *)
Fixpoint lit (s : string) : regex :=
  match s with
  | EmptyString => []
  | String a s' => Chr (CLit a) Once :: lit s'
  end.

(** The rest of the pattern, run on the text that is left; [prev] is the
    character before the current position ([None] at the start of the
    text). *)
Definition cont : Type := option ascii -> string -> option string.

(** [c*] followed by [k]: the longest run first, then shorter ones. *)
Fixpoint star_greedy (c : cls) (k : cont) (prev : option ascii) (s : string)
  : option string :=
  match s with
  | String a s' =>
      if accepts c a then
        match star_greedy c k (Some a) s' with
        | Some r => Some r
        | None => k prev s
        end
      else k prev s
  | EmptyString => k prev s
  end.

(** [c*?] followed by [k]: the shortest run first. *)
Fixpoint star_lazy (c : cls) (k : cont) (prev : option ascii) (s : string)
  : option string :=
  match k prev s with
  | Some r => Some r
  | None =>
      match s with
      | String a s' =>
          if accepts c a then star_lazy c k (Some a) s' else None
      | EmptyString => None
      end
  end.

(** [match_here p prev s]: the pattern matched at the start of [s]; the
    result is the text after the match, for the first match in the order of
    a backtracking search. *)
Fixpoint match_here (p : regex) (prev : option ascii) (s : string)
  {struct p} : option string :=
  match p with
  | [] => Some s
  | BOT :: p' =>
      match prev with
      | None => match_here p' prev s
      | Some _ => None
      end
  | BOL :: p' =>
      match prev with
      | None => match_here p' prev s
      | Some a => if Ascii.eqb a nl then match_here p' prev s else None
      end
  | EOL :: p' =>
      match s with
      | EmptyString => match_here p' prev s
      | String a _ => if Ascii.eqb a nl then match_here p' prev s else None
      end
  | Chr c Once :: p' =>
      match s with
      | String a s' => if accepts c a then match_here p' (Some a) s' else None
      | EmptyString => None
      end
  | Chr c Opt :: p' =>
      match s with
      | String a s' =>
          if accepts c a then
            match match_here p' (Some a) s' with
            | Some r => Some r
            | None => match_here p' prev s
            end
          else match_here p' prev s
      | EmptyString => match_here p' prev s
      end
  | Chr c Star :: p' => star_greedy c (match_here p') prev s
  | Chr c Plus :: p' =>
      match s with
      | String a s' =>
          if accepts c a then star_greedy c (match_here p') (Some a) s'
          else None
      | EmptyString => None
      end
  | Chr c StarLazy :: p' => star_lazy c (match_here p') prev s
  end.

(** [re.sub(p, repl, s)] from a position of the scan: [skip] characters of
    a match found earlier are still to be dropped.  The patterns of the
    analyzer match no empty text ([patterns_consume] below), so the case of
    a match of no character, which is passed over here, never runs. *)
Fixpoint sub_from (p : regex) (repl : string) (prev : option ascii)
  (skip : nat) (s : string) : string :=
  match s with
  | EmptyString => EmptyString
  | String a s' =>
      match skip with
      | S k => sub_from p repl (Some a) k s'
      | O =>
          match match_here p prev s with
          | Some r =>
              match String.length s - String.length r with
              | S k => (repl ++ sub_from p repl (Some a) k s')%string
              | O => String a (sub_from p repl (Some a) 0 s')
              end
          | None => String a (sub_from p repl (Some a) 0 s')
          end
      end
  end.

Definition sub (p : regex) (repl : string) (s : string) : string :=
  sub_from p repl None 0 s.

(** A pattern that, after its anchors, begins with a character it must
    read: it matches no empty text. *)
Fixpoint consumes (p : regex) : bool :=
  match p with
  | Chr _ Once :: _ | Chr _ Plus :: _ => true
  | BOT :: p' | BOL :: p' | EOL :: p' => consumes p'
  | _ => false
  end.

(** [re.findall(p, s)] for a pattern without groups: the matches, from left
    to right, none overlapping another. *)
Fixpoint findall_from (p : regex) (prev : option ascii) (skip : nat)
  (s : string) : list string :=
  match s with
  | EmptyString => []
  | String a s' =>
      match skip with
      | S k => findall_from p (Some a) k s'
      | O =>
          match match_here p prev s with
          | Some r =>
              match String.length s - String.length r with
              | S k =>
                  String.substring 0 (S k) s :: findall_from p (Some a) k s'
              | O => findall_from p (Some a) 0 s'
              end
          | None => findall_from p (Some a) 0 s'
          end
      end
  end.

Definition findall (p : regex) (s : string) : list string :=
  findall_from p None 0 s.

End Re.

(** ** Python values, exceptions and the files of a repository *)

Module Py.

Inductive exn : Type :=
| OSError               (* a file that cannot be opened (a directory, no
                           permission, no such file) *)
| UnicodeDecodeError    (* a file that is not valid UTF-8 *)
| YAMLError             (* a configuration that does not parse *)
| AttributeError        (* [.get] on a value that is not a dict *)
| TypeError.            (* iteration or [in] on a value that has neither *)

Inductive result (A : Type) : Type :=
| Ok (a : A)
| Raise (e : exn).

Arguments Ok {A} a.
Arguments Raise {A} e.

Definition bind {A B : Type} (c : result A) (k : A -> result B) : result B :=
  match c with
  | Ok a => k a
  | Raise e => Raise e
  end.

Notation "x <- c ;; k" := (bind c (fun x => k))
  (at level 61, c at next level, right associativity).

(** [try: c  except Exception: handler] *)
Definition try_except {A : Type} (c : result A) (handler : A) : A :=
  match c with
  | Ok a => a
  | Raise _ => handler
  end.

(** The values [yaml.safe_load] builds (floats and dates, which no metric
    reads, are left out).  A dict is the list of its items in insertion
    order; its keys are strings, and [lookup] reads the first item of a
    key. *)
Inductive value : Type :=
| VNone
| VBool (b : bool)
| VInt (z : Z)
| VStr (s : string)
| VList (l : list value)
| VDict (d : list (string * value)).

Fixpoint lookup (key : string) (d : list (string * value)) : option value :=
  match d with
  | [] => None
  | (k, v) :: d' => if String.eqb k key then Some v else lookup key d'
  end.

(** [v.get(key, default)] *)
Definition get (v : value) (key : string) (default : value) : result value :=
  match v with
  | VDict d =>
      match lookup key d with
      | Some x => Ok x
      | None => Ok default
      end
  | _ => Raise AttributeError
  end.

(** [bool(v)] *)
Definition truthy (v : value) : bool :=
  match v with
  | VNone => false
  | VBool b => b
  | VInt z => negb (Z.eqb z 0)
  | VStr s => negb (Str.is_empty s)
  | VList l => match l with [] => false | _ :: _ => true end
  | VDict d => match d with [] => false | _ :: _ => true end
  end.

(** [key in v] for a string [key] *)
Definition key_in (key : string) (v : value) : result bool :=
  match v with
  | VDict d =>
      Ok (match lookup key d with Some _ => true | None => false end)
  | VList l =>
      Ok (existsb (fun x => match x with
                            | VStr s => String.eqb s key
                            | _ => false
                            end) l)
  | VStr s => Ok (Str.contains key s)
  | _ => Raise TypeError
  end.

(** [for item in v]: the items a loop over [v] sees. *)
Definition iter (v : value) : result (list value) :=
  match v with
  | VList l => Ok l
  | VDict d => Ok (map (fun kv => VStr (fst kv)) d)
  | VStr s =>
      Ok (map (fun a => VStr (String a EmptyString)) (list_ascii_of_string s))
  | _ => Raise TypeError
  end.

End Py.

Module Fs.

Import Py.

(** A file holds what [open(...).read()] returns: its text, or the
    exception raised. *)
Inductive node : Type :=
| File (name : string) (data : result string)
| Dir (name : string) (children : list node).

Definition name (n : node) : string :=
  match n with
  | File nm _ => nm
  | Dir nm _ => nm
  end.

(** [p.is_dir()] *)
Definition is_dir (n : node) : bool :=
  match n with
  | File _ _ => false
  | Dir _ _ => true
  end.

(** [p.glob('*')] *)
Definition children (n : node) : list node :=
  match n with
  | File _ _ => []
  | Dir _ cs => cs
  end.

(** [open(p).read()] *)
Definition read (n : node) : result string :=
  match n with
  | File _ data => data
  | Dir _ _ => Raise OSError
  end.

(** Everything below a node, at any depth. *)
Fixpoint descendants (n : node) : list node :=
  match n with
  | File _ _ => []
  | Dir _ cs => flat_map (fun c => c :: descendants c) cs
  end.

(** [p.glob('**/*' + ext)] on a directory with the entries [cs]: the
    entries at any depth, directories too, whose name ends with [ext].
    The order is one of those a listing may have; the analyzer only counts
    and sums over it. *)
Definition rglob (ext : string) (cs : list node) : list node :=
  filter (fun n => Str.endswith ext (name n))
         (flat_map (fun c => c :: descendants c) cs).

(** [p / nm] with [p.exists()]: the entry of that name, if there is one. *)
Definition child (nm : string) (cs : list node) : option node :=
  find (fun n => String.eqb (name n) nm) cs.

(** A repository: the entries of [docs/] ([None] when there is no such
    directory) and what opening and parsing [mkdocs.yml] gives. *)
Record repo : Type := {
  docs : option (list node);
  mkdocs_yml : result value
}.

End Fs.

(** ** class TextbookAnalyzer *)

Module TextbookAnalyzer.

Import Str Re Py Fs.

(** *** The patterns *)

(** [\A---[\s\S]*?---] *)
Definition re_front_matter : regex :=
  BOT :: lit "---" ++ [Chr CAny StarLazy] ++ lit "---".

(** [```[\s\S]*?```] *)
Definition re_code_block : regex :=
  lit "```" ++ [Chr CAny StarLazy] ++ lit "```".

(** [`[^`]*`] *)
Definition re_inline_code : regex :=
  lit "`" ++ [Chr (CNot "`"%char) Star] ++ lit "`".

(** [<[^>]+>] *)
Definition re_html_tag : regex :=
  lit "<" ++ [Chr (CNot ">"%char) Plus] ++ lit ">".

(** [http[s]?://\S+] *)
Definition re_url : regex :=
  lit "http" ++ [Chr (CLit "s"%char) Opt] ++ lit "://"
  ++ [Chr CNonSpace Plus].

(** [\s+] *)
Definition re_whitespace : regex := [Chr CSpace Plus].

(** [^####\s+\S.*$] with [re.MULTILINE] *)
Definition re_glossary_term : regex :=
  BOL :: lit "####" ++ [Chr CSpace Plus; Chr CNonSpace Once; Chr CDot Star; EOL].

(** [!!!.*?\n] *)
Definition re_admonition : regex :=
  lit "!!!" ++ [Chr CDot StarLazy; Chr (CLit nl) Once].

(** [```[a-zA-Z0-9]*\n[\s\S]*?\n```] *)
Definition re_code_example : regex :=
  lit "```" ++ [Chr CAlnum Star; Chr (CLit nl) Once; Chr CAny StarLazy;
                Chr (CLit nl) Once] ++ lit "```".

(** *** _count_words *)

(** The body of the loop of [_count_words] from [f.read()] to
    [len(words)]. *)
Definition words_in (content : string) : nat :=
  let content := sub re_front_matter "" content in
  let content := sub re_code_block "" content in
  let content := sub re_inline_code "" content in
  let content := sub re_html_tag "" content in
  let content := sub re_url "" content in
  let content := sub re_whitespace " " content in
  let words := split (strip content) in
  List.length words.

(** The loop of [_count_words] over the files the glob lists, in the
    order it lists them. *)
Definition count_words_loop (md_files : list node) : nat :=
  fold_left
    (fun total_words md_file =>
       match read md_file with
       | Ok content => total_words + words_in content
       | Raise _ => total_words
       end)
    md_files 0.

Definition _count_words (r : repo) : nat :=
  match docs r with
  | None => 0
  | Some entries => count_words_loop (rglob ".md" entries)
  end.

(** *** _count_microsims, _count_glossary_terms, _get_basic_metrics *)

(** The entries of [docs/sims], [None] when it does not exist. *)
Definition sims_dir (r : repo) : option (list node) :=
  match docs r with
  | None => None
  | Some entries =>
      match child "sims" entries with
      | None => None
      | Some d => Some (children d)
      end
  end.

Definition _count_microsims (r : repo) : nat :=
  match sims_dir r with
  | None => 0
  | Some ds =>
      List.length
        (filter (fun d => is_dir d && negb (startswith "_" (name d))) ds)
  end.

Definition _count_glossary_terms (r : repo) : nat :=
  match docs r with
  | None => 0
  | Some entries =>
      match child "glossary.md" entries with
      | None => 0
      | Some glossary_path =>
          try_except
            (content <- read glossary_path ;;
             Ok (List.length (findall re_glossary_term content)))
            0
      end
  end.

Record basic_metrics_t : Type := {
  markdown_files : nat;
  images : nat;
  word_count : nat;
  microsims : nat;
  glossary_terms : nat
}.

(** [docs_path.glob(...)]: nothing when there is no [docs/]. *)
Definition docs_glob (ext : string) (r : repo) : list node :=
  match docs r with
  | None => []
  | Some entries => rglob ext entries
  end.

Definition _get_basic_metrics (r : repo) : basic_metrics_t :=
  {| markdown_files := List.length (docs_glob ".md" r);
     images := List.length (docs_glob ".png" r)
               + List.length (docs_glob ".jpg" r);
     word_count := _count_words r;
     microsims := _count_microsims r;
     glossary_terms := _count_glossary_terms r |}.

(** *** _analyze_content_structure *)

Fixpoint get_depth (item : value) : nat :=
  match item with
  | VDict d => 1 + list_max (map (fun '(_, v) => get_depth v) d)
  | _ => 0
  end.

Definition _calculate_nav_depth (nav : value) : result nat :=
  items <- iter nav ;;
  Ok (list_max (map get_depth items)).

(** The loop shared by [_count_admonitions] and [_count_code_blocks]. *)
Definition count_matches (p : regex) (r : repo) : nat :=
  fold_left
    (fun count md_file =>
       match read md_file with
       | Ok content => count + List.length (findall p content)
       | Raise _ => count
       end)
    (docs_glob ".md" r) 0.

Definition _count_admonitions (r : repo) : nat :=
  count_matches re_admonition r.

Definition _count_code_blocks (r : repo) : nat :=
  count_matches re_code_example r.

Record content_structure_t : Type := {
  navigation_depth : nat;
  admonitions : nat;
  code_examples : nat
}.

Definition _analyze_content_structure (r : repo) : result content_structure_t :=
  let nav_structure :=
    try_except
      (mkdocs_config <- mkdocs_yml r ;; get mkdocs_config "nav" (VList []))
      (VList []) in
  depth <- _calculate_nav_depth nav_structure ;;
  Ok {| navigation_depth := depth;
        admonitions := _count_admonitions r;
        code_examples := _count_code_blocks r |}.

(** *** _analyze_engagement_features *)

Record complexities_t : Type := {
  simple : nat;
  medium : nat;
  complex : nat
}.

(** The inner loop of [_analyze_microsim_complexity]: the lines of the
    scripts below one directory. *)
Definition code_lines (sim_dir : node) : nat :=
  fold_left
    (fun code_lines file =>
       match read file with
       | Ok text => code_lines + List.length (readlines text)
       | Raise _ => code_lines
       end)
    (rglob ".js" (children sim_dir)) 0.

(** One round of the outer loop. *)
Definition tally (complexities : complexities_t) (sim_dir : node)
  : complexities_t :=
  if negb (is_dir sim_dir) then complexities
  else
    let n := code_lines sim_dir in
    if n <? 100 then
      {| simple := simple complexities + 1;
         medium := medium complexities;
         complex := complex complexities |}
    else if n <? 300 then
      {| simple := simple complexities;
         medium := medium complexities + 1;
         complex := complex complexities |}
    else
      {| simple := simple complexities;
         medium := medium complexities;
         complex := complex complexities + 1 |}.

Definition _analyze_microsim_complexity (r : repo) : complexities_t :=
  match sims_dir r with
  | None => {| simple := 0; medium := 0; complex := 0 |}
  | Some ds => fold_left tally ds {| simple := 0; medium := 0; complex := 0 |}
  end.

Definition _check_analytics_config (r : repo) : bool :=
  try_except
    (config <- mkdocs_yml r ;;
     extra <- get config "extra" (VDict []) ;;
     analytics <- get extra "analytics" (VDict []) ;;
     provider <- get analytics "provider" VNone ;;
     if truthy provider then
       property <- get analytics "property" VNone ;;
       Ok (truthy property)
     else Ok false)
    false.

Record engagement_features_t : Type := {
  microsim_complexity : complexities_t;
  has_analytics : bool
}.

Definition _analyze_engagement_features (r : repo) : engagement_features_t :=
  {| microsim_complexity := _analyze_microsim_complexity r;
     has_analytics := _check_analytics_config r |}.

(** *** _analyze_technical_quality *)

Record required_fields_t : Type := {
  site_name : bool;
  theme : bool;
  nav : bool
}.

Definition _verify_build_config (r : repo) : required_fields_t :=
  let f0 := {| site_name := false; theme := false; nav := false |} in
  match mkdocs_yml r with
  | Raise _ => f0
  | Ok config =>
      match key_in "site_name" config with
      | Raise _ => f0
      | Ok b1 =>
          let f1 := {| site_name := b1; theme := false; nav := false |} in
          match key_in "theme" config with
          | Raise _ => f1
          | Ok b2 =>
              let f2 := {| site_name := b1; theme := b2; nav := false |} in
              match key_in "nav" config with
              | Raise _ => f2
              | Ok b3 => {| site_name := b1; theme := b2; nav := b3 |}
              end
          end
      end
  end.

Record responsive_features_t : Type := {
  mobile_navigation : bool
}.

Definition _check_responsive_design (r : repo) : responsive_features_t :=
  {| mobile_navigation :=
       try_except
         (config <- mkdocs_yml r ;;
          theme_cfg <- get config "theme" (VDict []) ;;
          theme_features <- get theme_cfg "features" (VList []) ;;
          key_in "navigation.tabs.mobile" theme_features)
         false |}.

Record technical_quality_t : Type := {
  build_config_complete : required_fields_t;
  responsive_design : responsive_features_t
}.

Definition _analyze_technical_quality (r : repo) : technical_quality_t :=
  {| build_config_complete := _verify_build_config r;
     responsive_design := _check_responsive_design r |}.

(** *** analyze *)

Record metrics_t : Type := {
  basic_metrics : basic_metrics_t;
  content_structure : content_structure_t;
  engagement_features : engagement_features_t;
  technical_quality : technical_quality_t
}.

Definition analyze (r : repo) : result metrics_t :=
  let basic := _get_basic_metrics r in
  structure <- _analyze_content_structure r ;;
  Ok {| basic_metrics := basic;
        content_structure := structure;
        engagement_features := _analyze_engagement_features r;
        technical_quality := _analyze_technical_quality r |}.

End TextbookAnalyzer.

(** ** The properties, in the words of the specification *)

Module Spec.

Import Str Re Py Fs TextbookAnalyzer.

(** [s[n:]] *)
Fixpoint drop (n : nat) (s : string) : string :=
  match n, s with
  | O, _ => s
  | S _, EmptyString => EmptyString
  | S k, String _ s' => drop k s'
  end.

(** The text after the first occurrence of [pat] in [s]. *)
Fixpoint after_first (pat s : string) : option string :=
  if startswith pat s then Some (drop (String.length pat) s)
  else match s with
       | EmptyString => None
       | String _ s' => after_first pat s'
       end.

(** What the first substitution of [_count_words] removes: a run of three
    hyphens at the very start of the text and everything up to and with
    the next run of three hyphens, wherever it stands. *)
Definition strip_leading_run (content : string) : string :=
  if startswith "---" content then
    match after_first "---" (drop 3 content) with
    | Some rest => rest
    | None => content
    end
  else content.

(** The lines after the first line equal to [l]. *)
Fixpoint after_line (l : string) (ls : list string) : option (list string) :=
  match ls with
  | [] => None
  | x :: rest => if String.eqb x l then Some rest else after_line l rest
  end.

(** ['\n'.join(ls)] *)
Definition join_nl (ls : list string) : string :=
  String.concat (String nl EmptyString) ls.

(** The metadata block as the specification words it: a first line of
    three hyphens, and everything up to and with the next line of three
    hyphens. *)
Definition strip_metadata_lines (content : string) : string :=
  match split_nl content with
  | first :: rest =>
      if String.eqb first "---" then
        match after_line "---" rest with
        | Some body => join_nl body
        | None => content
        end
      else content
  | [] => content
  end.

(** The steps (b) to (e) of word counting, fenced code blocks, inline
    code spans, markup tags and URLs: they are those of the source. *)
Definition strip_markup (content : string) : string :=
  sub re_url ""
    (sub re_html_tag ""
       (sub re_inline_code ""
          (sub re_code_block "" content))).

(** Word counting with the metadata block of the specification. *)
Definition words_in_as_stated (content : string) : nat :=
  List.length (split (strip_markup (strip_metadata_lines content))).

(** How many elements of a list satisfy a test. *)
Definition count {A : Type} (f : A -> bool) (l : list A) : nat :=
  List.length (filter f l).

(** What a file adds to a sum over files: nothing when it cannot be
    read. *)
Definition contribution (f : string -> nat) (file : node) : nat :=
  match read file with
  | Ok content => f content
  | Raise _ => 0
  end.

(** Admonitions as the specification words them: the lines that begin
    with the marker. *)
Definition lines_beginning_with_marker (content : string) : nat :=
  count (startswith "!!!") (split_nl content).

(** The lines that hold the marker, at any column, and are closed by a
    line break: the last piece of [split_nl], which no line break closes,
    is left out. *)
Definition closed_lines_holding_marker (content : string) : nat :=
  count (contains "!!!") (removelast (split_nl content)).

(** A level-4 heading line as the specification words it: four [#], then
    whitespace, then at least one character that is not whitespace. *)
Definition is_term_heading (line : string) : bool :=
  startswith "####" line
  && match drop 4 line with
     | EmptyString => false
     | String a rest => isspace a && negb (is_empty (lstrip rest))
     end.

Definition term_heading_lines (content : string) : nat :=
  count is_term_heading (split_nl content).

(** [n] elements of a list have the property [P]. *)
Inductive counted {A : Type} (P : A -> Prop) : list A -> nat -> Prop :=
| counted_nil : counted P [] 0
| counted_in x l n : P x -> counted P l n -> counted P (x :: l) (S n)
| counted_out x l n : ~ P x -> counted P l n -> counted P (x :: l) n.

(** A simulation: a directory whose name does not begin with an
    underscore. *)
Definition is_simulation (d : node) : Prop :=
  is_dir d = true /\ forall rest, name d <> String "_" rest.

(** The directories right below [docs/sims]. *)
Definition sim_directories (r : repo) : list node :=
  match sims_dir r with
  | None => []
  | Some ds => filter is_dir ds
  end.

(** The provider and the property of the analytics entry of the
    configuration. *)
Definition analytics_pair (r : repo) (provider property : value) : Prop :=
  exists config extra analytics,
    mkdocs_yml r = Ok (VDict config)
    /\ lookup "extra" config = Some (VDict extra)
    /\ lookup "analytics" extra = Some (VDict analytics)
    /\ lookup "provider" analytics = Some provider
    /\ lookup "property" analytics = Some property.

(** The value [_analyze_content_structure] passes for the outline. *)
Definition nav_value (r : repo) : value :=
  match mkdocs_yml r with
  | Ok (VDict config) =>
      match lookup "nav" config with
      | Some v => v
      | None => VList []
      end
  | _ => VList []
  end.

(** The values a [for] loop runs over. *)
Definition iterable (v : value) : Prop :=
  match v with
  | VList _ | VDict _ | VStr _ => True
  | _ => False
  end.


(** [r] is what is left of [s] from some position on. *)
Definition suffix_of (r s : string) : Prop :=
  exists pre, s = (pre ++ r)%string.

(** The character before position [k] of a scan that starts at [s] after
    [prev]. *)
Fixpoint seen (k : nat) (prev : option ascii) (s : string) : option ascii :=
  match k, s with
  | S k', String a s' => seen k' (Some a) s'
  | _, _ => prev
  end.

(** A line break as a string. *)
Definition nls : string := String nl EmptyString.

(** The lines closed by a line break that hold the marker, read one
    character at a time; [found]: the marker began earlier in the line. *)
Fixpoint marker_scan (found : bool) (s : string) : nat :=
  match s with
  | EmptyString => 0
  | String a s' =>
      if Ascii.eqb a nl then (if found then 1 else 0) + marker_scan false s'
      else marker_scan (found || startswith "!!!" s) s'
  end.

Definition first_line (s : string) : string := hd EmptyString (split_nl s).


Definition total (h : complexities_t) : nat :=
  simple h + medium h + complex h.

End Spec.

(** ** Sample repositories *)

Module Examples.

Import Str Re Py Fs TextbookAnalyzer Spec.

(** A repository with the given entries of [docs/] and no [mkdocs.yml]. *)
Definition repo_of_docs (entries : list node) : repo :=
  {| docs := Some entries; mkdocs_yml := Raise OSError |}.

(** A repository without [docs/] whose [mkdocs.yml] loads as [config]. *)
Definition repo_of_config (config : value) : repo :=
  {| docs := None; mkdocs_yml := Ok config |}.

(** A repository whose [docs/sims] holds the entries [ds]. *)
Definition repo_of_sims (ds : list node) : repo :=
  repo_of_docs [Dir "sims" ds].

(** [[{"A": [{"B": "page.md"}]}]] *)
Definition nested_outline : value :=
  VList [VDict [("A", VList [VDict [("B", VStr "page.md")]])]].

Definition midline_repo : repo :=
  repo_of_docs [File "a.md" (Ok (py "wow!!!\n"))].

Definition last_line_repo : repo :=
  repo_of_docs [File "a.md" (Ok (py "!!! note"))].

Definition admonition_repo : repo :=
  repo_of_docs
    [File "index.md" (Ok (py "# Title\n!!! note\n    text\nwow!!!\n"));
     Dir "chapter" [File "a.md" (Ok (py "  !!! tip\n"));
                    File "b.md" (Raise UnicodeDecodeError);
                    File "c.md" (Ok "")]].

Definition bare_heading_repo : repo :=
  repo_of_docs [File "glossary.md" (Ok (py "#### \nfoo\n"))].

Definition two_terms_repo : repo :=
  repo_of_docs
    [File "glossary.md"
       (Ok (py "# Glossary\n\n#### Alpha\nfirst\n\n##### Five\n#### Beta\nsecond\n"))].

Definition null_nav_repo : repo := repo_of_config (VDict [("nav", VNone)]).

Definition underscore_repo : repo :=
  repo_of_sims [Dir "pendulum" []; Dir "_template" []; File "index.md" (Ok "")].


Definition analytics_repo : repo :=
  repo_of_config
    (VDict [("site_name", VStr "Book");
            ("extra", VDict [("analytics",
                              VDict [("provider", VStr "google");
                                     ("property", VStr "G-1")])])]).

End Examples.

(** * The rest of the metrics and the other scripts *)

Module More.

Import Str Re Py Fs TextbookAnalyzer Spec Examples.

(** [isinstance(v, dict)] *)
Definition is_dict (v : value) : bool :=
  match v with
  | VDict _ => true
  | _ => false
  end.

(** An entry of an outline as mkdocs reads it: a page ([index.md] or
    [Home: index.md]) or a section ([Title: [entries]]); the value under a
    title is never itself a mapping. *)
Definition outline_entry (v : value) : bool :=
  match v with
  | VDict d => forallb (fun kv => negb (is_dict (snd kv))) d
  | _ => true
  end.

(** The line breaks of a text. *)
Fixpoint count_nl (s : string) : nat :=
  match s with
  | EmptyString => 0
  | String a s' => (if Ascii.eqb a nl then 1 else 0) + count_nl s'
  end.

(** The line breaks a pattern must read. *)
Fixpoint needs_nl (p : regex) : nat :=
  match p with
  | [] => 0
  | Chr (CLit a) Once :: p' => (if Ascii.eqb a nl then 1 else 0) + needs_nl p'
  | _ :: p' => needs_nl p'
  end.

(** Everything below [docs/], at any depth. *)
Definition docs_entries (r : repo) : list node :=
  match docs r with
  | None => []
  | Some entries => flat_map (fun c => c :: descendants c) entries
  end.

(** The metrics read from the configuration, when it does not load. *)
Definition no_fields : required_fields_t :=
  {| site_name := false; theme := false; nav := false |}.

(** Repositories with a configuration. *)
Definition tabs_repo : repo :=
  repo_of_config
    (VDict [("theme", VDict [("name", VStr "material");
                             ("features", VList [VStr "navigation.tabs";
                                                 VStr "navigation.tabs.mobile"])])]).

Definition section_repo : repo :=
  repo_of_config (VDict [("nav", VList [VDict [("A", VList [VStr "a.md"])]])]).

Definition null_keys_repo : repo :=
  repo_of_config (VDict [("site_name", VNone); ("nav", VNone)]).

End More.

(** ** generate_report *)

Module Report.

Import Str Re Py Fs TextbookAnalyzer Spec Examples.

(** What the report prints: the value of a metric is a number or a
    truth value, and a metric of a group may hold a group of its own. *)
Inductive scalar : Type :=
| SInt (n : nat)
| SBool (b : bool).

Inductive metric : Type :=
| Scalar (v : scalar)
| Group (items : list (string * scalar)).

(** [str(n)] of a natural number: its decimal digits. *)
Definition str_int (n : nat) : string :=
  NilEmpty.string_of_uint (Nat.to_uint n).

(** [f"{value}"] *)
Definition str_of (v : scalar) : string :=
  match v with
  | SInt n => str_int n
  | SBool true => "True"
  | SBool false => "False"
  end.

(** [key.replace('_', ' ')] *)
Fixpoint underscores_to_spaces (s : string) : string :=
  match s with
  | EmptyString => EmptyString
  | String a s' =>
      String (if Ascii.eqb a "_" then " "%char else a)
             (underscores_to_spaces s')
  end.

Definition is_lower (a : ascii) : bool :=
  let n := nat_of_ascii a in (97 <=? n) && (n <=? 122).

Definition is_upper (a : ascii) : bool :=
  let n := nat_of_ascii a in (65 <=? n) && (n <=? 90).

(** [s.title()] on ASCII text, which the keys of the report are: a letter
    after a letter is made small, a letter after anything else is made
    capital.  [cased]: the character before was a letter. *)
Fixpoint title_from (cased : bool) (s : string) : string :=
  match s with
  | EmptyString => EmptyString
  | String a s' =>
      if is_lower a then
        String (if cased then a else ascii_of_nat (nat_of_ascii a - 32))
               (title_from true s')
      else if is_upper a then
        String (if cased then ascii_of_nat (nat_of_ascii a + 32) else a)
               (title_from true s')
      else String a (title_from false s')
  end.

Definition title (s : string) : string := title_from false s.

(** [key.replace('_', ' ').title()] *)
Definition label (key : string) : string :=
  title (underscores_to_spaces key).

(** The dicts of [analyze], as the lists of their items in the order the
    source writes them. *)
Definition basic_items (b : basic_metrics_t) : list (string * scalar) :=
  [("markdown_files", SInt (markdown_files b));
   ("images", SInt (images b));
   ("word_count", SInt (word_count b));
   ("microsims", SInt (microsims b));
   ("glossary_terms", SInt (glossary_terms b))].

Definition structure_items (c : content_structure_t)
  : list (string * scalar) :=
  [("navigation_depth", SInt (navigation_depth c));
   ("admonitions", SInt (admonitions c));
   ("code_examples", SInt (code_examples c))].

Definition complexity_items (h : complexities_t) : list (string * scalar) :=
  [("simple", SInt (simple h));
   ("medium", SInt (medium h));
   ("complex", SInt (complex h))].

Definition engagement_items (e : engagement_features_t)
  : list (string * metric) :=
  [("microsim_complexity", Group (complexity_items (microsim_complexity e)));
   ("has_analytics", Scalar (SBool (has_analytics e)))].

Definition required_items (f : required_fields_t) : list (string * scalar) :=
  [("site_name", SBool (site_name f));
   ("theme", SBool (theme f));
   ("nav", SBool (nav f))].

Definition responsive_items (f : responsive_features_t)
  : list (string * scalar) :=
  [("mobile_navigation", SBool (mobile_navigation f))].

Definition technical_items (t : technical_quality_t)
  : list (string * metric) :=
  [("build_config_complete",
    Group (required_items (build_config_complete t)));
   ("responsive_design",
    Group (responsive_items (responsive_design t)))].

(** The body of the first two loops of [generate_report]. *)
Definition scalar_line (indent : string) (kv : string * scalar) : string :=
  (indent ++ "- " ++ label (fst kv) ++ ": " ++ str_of (snd kv))%string.

(** The body of the last two loops: a group gives a line of its own and
    one line for each of its items. *)
Definition metric_lines (kv : string * metric) : list string :=
  match snd kv with
  | Group items =>
      ("- " ++ label (fst kv) ++ ":")%string
      :: map (scalar_line "  ") items
  | Scalar v => [scalar_line "" (fst kv, v)]
  end.

(** The list [report] at the end of [generate_report]. *)
Definition report_of (m : metrics_t) : list string :=
  [py "# Intelligent Textbook Quality Report\n"]
  ++ ["## Basic Metrics"]
  ++ map (scalar_line "") (basic_items (basic_metrics m))
  ++ [py "\n## Content Structure"]
  ++ map (scalar_line "") (structure_items (content_structure m))
  ++ [py "\n## Engagement Features"]
  ++ flat_map metric_lines (engagement_items (engagement_features m))
  ++ [py "\n## Technical Quality"]
  ++ flat_map metric_lines (technical_items (technical_quality m)).

Definition generate_report (r : repo) : result string :=
  metrics <- analyze r ;;
  Ok (join_nl (report_of metrics)).

(** The lines of the report, one string for each. *)
Definition report_lines (m : metrics_t) : list string :=
  ["# Intelligent Textbook Quality Report"; "";
   "## Basic Metrics";
   "- Markdown Files: " ++ str_int (markdown_files (basic_metrics m));
   "- Images: " ++ str_int (images (basic_metrics m));
   "- Word Count: " ++ str_int (word_count (basic_metrics m));
   "- Microsims: " ++ str_int (microsims (basic_metrics m));
   "- Glossary Terms: " ++ str_int (glossary_terms (basic_metrics m));
   "";
   "## Content Structure";
   "- Navigation Depth: "
     ++ str_int (navigation_depth (content_structure m));
   "- Admonitions: " ++ str_int (admonitions (content_structure m));
   "- Code Examples: " ++ str_int (code_examples (content_structure m));
   "";
   "## Engagement Features";
   "- Microsim Complexity:";
   "  - Simple: "
     ++ str_int (simple (microsim_complexity (engagement_features m)));
   "  - Medium: "
     ++ str_int (medium (microsim_complexity (engagement_features m)));
   "  - Complex: "
     ++ str_int (complex (microsim_complexity (engagement_features m)));
   "- Has Analytics: "
     ++ str_of (SBool (has_analytics (engagement_features m)));
   "";
   "## Technical Quality";
   "- Build Config Complete:";
   "  - Site Name: "
     ++ str_of (SBool (site_name (build_config_complete (technical_quality m))));
   "  - Theme: "
     ++ str_of (SBool (theme (build_config_complete (technical_quality m))));
   "  - Nav: "
     ++ str_of (SBool (nav (build_config_complete (technical_quality m))));
   "- Responsive Design:";
   "  - Mobile Navigation: "
     ++ str_of (SBool (mobile_navigation
                         (responsive_design (technical_quality m))))]%string.

(** A string of decimal digits, and a string without a line break. *)
Definition is_digit (a : ascii) : bool :=
  let n := nat_of_ascii a in (48 <=? n) && (n <=? 57).

Fixpoint all_chars (f : ascii -> bool) (s : string) : bool :=
  match s with
  | EmptyString => true
  | String a s' => f a && all_chars f s'
  end.

Definition one_line (s : string) : bool :=
  all_chars (fun a => negb (Ascii.eqb a nl)) s.

End Report.

(** ** get-ibook-metrics.py *)

Module IbookMetrics.

Import Str Re Py Fs TextbookAnalyzer Spec Examples.

(** Each function takes [docs_dir]: here the entries of that directory. *)

Definition count_markdown_files (docs_dir : list node) : nat :=
  List.length (rglob ".md" docs_dir).

Definition count_images (docs_dir : list node) : nat :=
  let png_count := List.length (rglob ".png" docs_dir) in
  let jpg_count := List.length (rglob ".jpg" docs_dir) in
  png_count + jpg_count.

(** [```.*?```] with [re.DOTALL] *)
Definition re_code_block : regex :=
  lit "```" ++ [Chr CAny StarLazy] ++ lit "```".

(** [`.*?`] *)
Definition re_inline_code : regex :=
  lit "`" ++ [Chr CDot StarLazy] ++ lit "`".

(** [http[s]?://\S+] *)
Definition re_url : regex :=
  lit "http" ++ [Chr (CLit "s"%char) Opt] ++ lit "://"
  ++ [Chr CNonSpace Plus].

(** The body of the loop of [count_words_in_markdown] from [f.read()] to
    [len(words)]. *)
Definition words_in (content : string) : nat :=
  let content := sub re_code_block "" content in
  let content := sub re_inline_code "" content in
  let content := sub re_url "" content in
  let words := split content in
  List.length words.

(** The loop has no [try]: the first file that cannot be read ends it. *)
Fixpoint count_words_loop (total_words : nat) (md_files : list node)
  : result nat :=
  match md_files with
  | [] => Ok total_words
  | md_file :: rest =>
      content <- read md_file ;;
      count_words_loop (total_words + words_in content) rest
  end.

Definition count_words_in_markdown (docs_dir : list node) : result nat :=
  count_words_loop 0 (rglob ".md" docs_dir).

(** [p.iterdir()]: the entries of a directory.  On a file it raises
    [NotADirectoryError], a subclass of [OSError], where [glob('*')]
    lists nothing. *)
Definition iterdir (p : node) : result (list node) :=
  match p with
  | File _ _ => Raise OSError
  | Dir _ cs => Ok cs
  end.

(** There is no [try]: what [iterdir] raises leaves the function. *)
Definition count_microsims (docs_dir : list node) : result nat :=
  match child "sims" docs_dir with
  | None => Ok 0
  | Some sims_dir =>
      ds <- iterdir sims_dir ;;
      Ok (List.length (filter is_dir ds))
  end.

(** [^####\s+.*$] with [re.MULTILINE] *)
Definition re_glossary_term : regex :=
  BOL :: lit "####" ++ [Chr CSpace Plus; Chr CDot Star; EOL].

Definition count_glossary_terms (docs_dir : list node) : result nat :=
  match child "glossary.md" docs_dir with
  | None => Ok 0
  | Some glossary_path =>
      content <- read glossary_path ;;
      Ok (List.length (findall re_glossary_term content))
  end.

End IbookMetrics.

Module MoreIbook.

Import Str Re Py Fs TextbookAnalyzer Spec Examples.

(** A text without the character [c]. *)
Definition lacks (c : ascii) (s : string) : bool :=
  negb (contains (String c EmptyString) s).

(** The character a pattern must read first. *)
Definition first_char (p : regex) : option ascii :=
  match p with
  | Chr (CLit c) Once :: _ => Some c
  | _ => None
  end.

(** Prose: a text without backticks and [<] that does not begin with three
    hyphens. *)
Definition plain (content : string) : bool :=
  lacks "`" content && lacks "<" content
  && negb (startswith "---" content).

(** A tree of prose. *)
Definition prose_docs : list node :=
  [File "index.md" (Ok "one two");
   Dir "chapter" [File "a.md" (Ok (py "# Title\nthree http://x.y/z four\n"))]].

End MoreIbook.

(** ** check-sites.py *)

Module CheckSites.

Import Str Spec.

(** [a in chars] for a character *)
Definition among (chars : string) (a : ascii) : bool :=
  contains (String a EmptyString) chars.

(** [s.lstrip(chars)], [s.rstrip(chars)] and [s.strip(chars)] *)
Fixpoint lstrip_chars (chars s : string) : string :=
  match s with
  | EmptyString => EmptyString
  | String a s' => if among chars a then lstrip_chars chars s' else s
  end.

Fixpoint rstrip_chars (chars s : string) : string :=
  match s with
  | EmptyString => EmptyString
  | String a s' =>
      let r := rstrip_chars chars s' in
      if is_empty r && among chars a then EmptyString else String a r
  end.

Definition strip_chars (chars s : string) : string :=
  rstrip_chars chars (lstrip_chars chars s).

(** [s.split(sep)] for a separator of one character: the pieces between
    the separators. *)
Fixpoint split_at (sep : ascii) (s : string) : list string :=
  match s with
  | EmptyString => [EmptyString]
  | String a s' =>
      if Ascii.eqb a sep then EmptyString :: split_at sep s'
      else match split_at sep s' with
           | piece :: rest => String a piece :: rest
           | [] => [String a EmptyString]
           end
  end.

(** [s.replace(old, new)] for a non-empty [old]: the occurrences of [old]
    from left to right, none overlapping another; [skip] characters of
    the last one are still to be dropped. *)
Fixpoint replace_from (old new : string) (skip : nat) (s : string) : string :=
  match s with
  | EmptyString => EmptyString
  | String a s' =>
      match skip with
      | S k => replace_from old new k s'
      | O =>
          if startswith old s
          then (new ++ replace_from old new (String.length old - 1) s')%string
          else String a (replace_from old new 0 s')
      end
  end.

Definition replace (old new s : string) : string := replace_from old new 0 s.

Definition GITHUB_PREFIX : string := "https://github.com/".
Definition GITHUB_IO : string := ".github.io/".

(** [infer_github_user_repo]: [Some (user, repo)], or [None] for the
    pair [(None, None)]. *)
Definition infer_github_user_repo (url : string) : option (string * string) :=
  if startswith GITHUB_PREFIX url then
    let path := drop (String.length GITHUB_PREFIX) url in
    let parts := split_at "/" (strip_chars "/" path) in
    match parts with
    | user :: repo :: _ => Some (user, repo)
    | _ => None
    end
  else if contains GITHUB_IO url then
    let remainder := replace "https://" "" url in
    let parts := split_at "/" remainder in
    match parts with
    | host :: repo :: _ =>
        if endswith GITHUB_IO host then
          let user := replace GITHUB_IO "" host in
          let repo := strip_chars "/" repo in
          Some (user, repo)
        else None
    | _ => None
    end
  else None.

End CheckSites.

(** ** json-to-csv.py *)

Module Sites.

Import Py.

(** The values of [json.load] are those of [value]; the catalog is the
    list of its entries.  A missing key of [d[key]] raises [KeyError],
    which the analyzer never meets. *)
Inductive error : Type :=
| KeyError
| TypeError
| AttributeError.

Inductive outcome (A : Type) : Type :=
| Done (a : A)
| Fails (e : error).

Arguments Done {A} a.
Arguments Fails {A} e.

Definition then_ {A B : Type} (c : outcome A) (k : A -> outcome B)
  : outcome B :=
  match c with
  | Done a => k a
  | Fails e => Fails e
  end.

Notation "x <~ c ;; k" := (then_ c (fun x => k))
  (at level 61, c at next level, right associativity).

(** [v[key]] for a string [key] *)
Definition getitem (v : value) (key : string) : outcome value :=
  match v with
  | VDict d =>
      match lookup key d with
      | Some x => Done x
      | None => Fails KeyError
      end
  | _ => Fails TypeError
  end.

(** [v.get(key, default)] *)
Definition get (v : value) (key : string) (default : value) : outcome value :=
  match v with
  | VDict d =>
      match lookup key d with
      | Some x => Done x
      | None => Done default
      end
  | _ => Fails AttributeError
  end.

End Sites.

Module JsonToCsv.

Import Py Sites.

(** The dict [site_data] of one round of the loop, as the list of its
    items. *)
Definition site_data (entry : value) : outcome (list (string * value)) :=
  site <~ getitem entry "site" ;;
  name <~ get site "name" (VStr "") ;;
  github_repo <~ get site "github_repo" (VStr "") ;;
  site_url <~ get site "site_url" (VStr "") ;;
  description <~ get site "description" (VStr "") ;;
  status <~ get site "status" (VStr "") ;;
  markdown_file_count <~ get site "markdown-file-count" (VInt 0) ;;
  image_count <~ get site "image-count" (VInt 0) ;;
  word_count <~ get site "word-count" (VInt 0) ;;
  microsim_count <~ get site "microsim-count" (VInt 0) ;;
  glossary_term_count <~ get site "glossary-term-count" (VInt 0) ;;
  Done [("name", name);
        ("github_repo", github_repo);
        ("site_url", site_url);
        ("description", description);
        ("status", status);
        ("markdown_file_count", markdown_file_count);
        ("image_count", image_count);
        ("word_count", word_count);
        ("microsim_count", microsim_count);
        ("glossary_term_count", glossary_term_count)].

Fixpoint extract_loop (processed_sites : list (list (string * value)))
  (sites : list value) : outcome (list (list (string * value))) :=
  match sites with
  | [] => Done processed_sites
  | entry :: rest =>
      row <~ site_data entry ;;
      extract_loop (processed_sites ++ [row]) rest
  end.

Definition extract_site_data (sites : list value)
  : outcome (list (list (string * value))) :=
  extract_loop [] sites.

(** [fieldnames] of [write_csv_file] *)
Definition fieldnames : list string :=
  ["name"; "github_repo"; "site_url"; "description"; "status";
   "markdown_file_count"; "image_count"; "word_count"; "microsim_count";
   "glossary_term_count"].

(** The keys of a row that are no field of the header: [DictWriter]
    raises [ValueError] when there is one. *)
Definition wrong_fields (row : list (string * value)) : list string :=
  filter (fun k => negb (existsb (String.eqb k) fieldnames)) (map fst row).

(** An entry [extract_site_data] reads: a dict whose ["site"] is a
    dict. *)
Definition readable_entry (entry : value) : bool :=
  match entry with
  | VDict d =>
      match lookup "site" d with
      | Some (VDict _) => true
      | _ => false
      end
  | _ => false
  end.

(** A catalog of two sites, the second with its fields left out. *)
Definition catalog : list value :=
  [VDict [("site", VDict [("name", VStr "Microsims");
                          ("github_repo",
                           VStr "https://github.com/dmccreary/microsims");
                          ("word-count", VInt 1200)])];
   VDict [("site", VDict [])]].

End JsonToCsv.

(** ** Lines of the glossary *)

Module MoreGlossary.

Import Str Re Py Fs TextbookAnalyzer Spec Examples.

(** A line of four [#] followed by whitespace only, or by nothing. *)
Definition bare_heading (line : string) : bool :=
  startswith "####" line && is_empty (lstrip (drop 4 line)).

(** The text from the end of its first line on: what is left after [.*]
    has read up to [$]. *)
Fixpoint line_end (s : string) : string :=
  match s with
  | EmptyString => EmptyString
  | String a s' => if Ascii.eqb a nl then s else line_end s'
  end.

(** Whether [^] holds after the character [prev]. *)
Definition at_bol (prev : option ascii) : bool :=
  match prev with None => true | Some a => Ascii.eqb a nl end.

(** The number of lines with the property [f] that begin in [s], the
    line [s] begins with counted when [bol] holds. *)
Fixpoint line_scan (f : string -> bool) (bol : bool) (s : string) : nat :=
  match s with
  | EmptyString => 0
  | String a s' =>
      (if bol && f (first_line s) then 1 else 0)
      + line_scan f (Ascii.eqb a nl) s'
  end.

(** What [\s+\S.*$] leaves of [t]. *)
Definition heading_rest (t : string) : option string :=
  match t with
  | EmptyString => None
  | String w t' =>
      if isspace w then
        match lstrip t' with
        | EmptyString => None
        | String _ u => Some (line_end u)
        end
      else None
  end.

(** A repository whose documents are one glossary. *)
Definition glossary_repo (content : string) : repo :=
  repo_of_docs [File "glossary.md" (Ok content)].

End MoreGlossary.

(** * Properties *)

Import Str Re Py Fs TextbookAnalyzer Spec Examples.

(** ** Strings *)

Lemma length_append (s t : string) :
  String.length (s ++ t) = String.length s + String.length t.
Proof. induction s as [|a s IH]; simpl; [reflexivity | now rewrite IH]. Qed.

Lemma suffix_refl s : suffix_of s s.
Proof. now exists EmptyString. Qed.

Lemma suffix_cons a r s : suffix_of r s -> suffix_of r (String a s).
Proof. intros [pre ->]. now exists (String a pre). Qed.

Lemma suffix_length r s : suffix_of r s -> String.length r <= String.length s.
Proof. intros [pre ->]. rewrite length_append. lia. Qed.

Lemma drop_append (pre r : string) : drop (String.length pre) (pre ++ r) = r.
Proof. induction pre as [|a pre IH]; simpl; [now destruct r | exact IH]. Qed.

Lemma drop_suffix r s :
  suffix_of r s -> drop (String.length s - String.length r) s = r.
Proof.
  intros [pre ->]. rewrite length_append.
  replace (String.length pre + String.length r - String.length r)
    with (String.length pre) by lia.
  apply drop_append.
Qed.

Lemma drop_length : forall n s, String.length (drop n s) = String.length s - n.
Proof.
  induction n as [|n IH]; intros s; [simpl; lia|].
  destruct s as [|a s]; [reflexivity|]. simpl. apply IH.
Qed.

Lemma drop_is_suffix : forall n s, suffix_of (drop n s) s.
Proof.
  induction n as [|n IH]; intros s; [apply suffix_refl|].
  destruct s as [|a s]; [apply suffix_refl|]. apply suffix_cons, IH.
Qed.

Lemma after_first_suffix pat : forall s r,
  after_first pat s = Some r -> suffix_of r s.
Proof.
  induction s as [|a s IH]; intros r; cbn [after_first].
  - destruct (startswith pat ""); [|discriminate].
    intros [= <-]. apply drop_is_suffix.
  - destruct (startswith pat (String a s)).
    + intros [= <-]. apply drop_is_suffix.
    + intros H. apply suffix_cons. now apply IH.
Qed.

Lemma startswith_drop : forall p s,
  startswith p s = true ->
  String.length (drop (String.length p) s) + String.length p = String.length s.
Proof.
  induction p as [|a p IH]; intros s; [now destruct s|].
  destruct s as [|b s]; [discriminate|]. simpl.
  destruct (Ascii.eqb b a); [|discriminate]. simpl.
  intros H. specialize (IH _ H). lia.
Qed.

Lemma after_first_length pat : forall t r,
  after_first pat t = Some r ->
  String.length r + String.length pat <= String.length t.
Proof.
  induction t as [|a t IH]; intros r; cbn [after_first].
  - destruct (startswith pat "") eqn:E; [|discriminate].
    intros [= <-]. rewrite (startswith_drop _ _ E). lia.
  - destruct (startswith pat (String a t)) eqn:E.
    + intros [= <-]. rewrite (startswith_drop _ _ E). lia.
    + intros H. specialize (IH _ H). simpl. lia.
Qed.

(** ** The matcher *)

(** A match leaves a suffix of the text: first for the two stars, over any
    continuation that does. *)
Section Suffix.
Variable k : cont.
Hypothesis k_suffix : forall prev s r, k prev s = Some r -> suffix_of r s.

Lemma star_greedy_suffix c prev s r :
  star_greedy c k prev s = Some r -> suffix_of r s.
Proof.
  revert prev. induction s as [|a s IH]; intros prev; simpl.
  - apply k_suffix.
  - destruct (accepts c a); [|apply k_suffix].
    destruct (star_greedy c k (Some a) s) as [r'|] eqn:E.
    + intros [= ->]. apply suffix_cons. eapply IH; eauto.
    + apply k_suffix.
Qed.

Lemma star_lazy_suffix c prev s r :
  star_lazy c k prev s = Some r -> suffix_of r s.
Proof.
  revert prev. induction s as [|a s IH]; intros prev; simpl.
  - destruct (k prev "") eqn:E; [|discriminate].
    intros [= ->]. eapply k_suffix; eauto.
  - destruct (k prev (String a s)) eqn:E.
    + intros [= ->]. eapply k_suffix; eauto.
    + destruct (accepts c a); [|discriminate].
      intros H. apply suffix_cons. eapply IH; eauto.
Qed.
End Suffix.

Lemma match_here_suffix p : forall prev s r,
  match_here p prev s = Some r -> suffix_of r s.
Proof.
  induction p as [|i p IH]; intros prev s r; simpl.
  - intros [= ->]. apply suffix_refl.
  - destruct i as [c q| | |].
    + destruct q.
      * destruct s as [|a s]; [discriminate|].
        destruct (accepts c a); [|discriminate].
        intros H. apply suffix_cons. eauto.
      * destruct s as [|a s]; [eauto|].
        destruct (accepts c a); [|eauto].
        destruct (match_here p (Some a) s) eqn:E.
        -- intros [= ->]. apply suffix_cons. eauto.
        -- eauto.
      * apply star_greedy_suffix. exact IH.
      * destruct s as [|a s]; [discriminate|].
        destruct (accepts c a); [|discriminate].
        intros H. apply suffix_cons. eapply star_greedy_suffix; eauto.
      * apply star_lazy_suffix. exact IH.
    + destruct prev; [discriminate|eauto].
    + destruct prev as [a|]; [|eauto].
      destruct (Ascii.eqb a nl); [eauto|discriminate].
    + destruct s as [|a s]; [eauto|].
      destruct (Ascii.eqb a nl); [eauto|discriminate].
Qed.

(** A pattern that must read a character leaves less than the text. *)
Lemma match_here_consumes p : forall prev s r,
  consumes p = true ->
  match_here p prev s = Some r -> String.length r < String.length s.
Proof.
  induction p as [|i p IH]; intros prev s r; [discriminate|].
  destruct i as [c q| | |]; cbn [consumes match_here].
  - destruct q; try discriminate; intros _;
      (destruct s as [|a s]; [discriminate|]);
      (destruct (accepts c a); [|discriminate]); intros H.
    + apply match_here_suffix, suffix_length in H. simpl. lia.
    + apply (star_greedy_suffix _ (match_here_suffix p)), suffix_length in H.
      simpl. lia.
  - destruct prev; [discriminate|]. apply IH.
  - destruct prev as [a|]; [|apply IH].
    destruct (Ascii.eqb a nl); [apply IH | discriminate].
  - destruct s as [|a s]; [apply IH|].
    destruct (Ascii.eqb a nl); [apply IH | discriminate].
Qed.

(** So does every pattern of the analyzer. *)
Lemma patterns_consume :
  forallb consumes
    [re_front_matter; re_code_block; re_inline_code; re_html_tag; re_url;
     re_whitespace; re_glossary_term; re_admonition; re_code_example]
  = true.
Proof. reflexivity. Qed.

(** Dropping the [k] characters of a match is a jump to what follows it. *)
Lemma sub_from_skip p repl : forall k s prev,
  sub_from p repl prev k s = sub_from p repl (seen k prev s) 0 (drop k s).
Proof.
  induction k as [|k IH]; intros s prev.
  - now destruct s.
  - destruct s as [|a s]; [reflexivity|]. simpl. apply IH.
Qed.

Lemma seen_some : forall k s a, exists b, seen k (Some a) s = Some b.
Proof.
  induction k as [|k IH]; intros s a; simpl; [eauto|].
  destruct s as [|c s]; eauto.
Qed.

(** A literal at the head of a pattern is a test of [startswith]. *)
Lemma match_lit pat q : forall prev s,
  match_here (lit pat ++ q) prev s =
  if startswith pat s
  then match_here q (seen (String.length pat) prev s) (drop (String.length pat) s)
  else None.
Proof.
  induction pat as [|a pat IH]; intros prev s.
  - now destruct s.
  - destruct s as [|b s]; [reflexivity|]. simpl.
    destruct (Ascii.eqb b a); [apply IH | reflexivity].
Qed.

Lemma match_lit_only pat prev s :
  match_here (lit pat) prev s =
  if startswith pat s then Some (drop (String.length pat) s) else None.
Proof.
  rewrite <- (app_nil_r (lit pat)). rewrite match_lit. reflexivity.
Qed.

(** [[\s\S]*?] before a literal stops at the first place the literal
    stands. *)
Lemma star_lazy_any_lit pat : forall t prev,
  star_lazy CAny (match_here (lit pat)) prev t = after_first pat t.
Proof.
  induction t as [|a t IH]; intros prev.
  - simpl. rewrite match_lit_only. now destruct (startswith pat "").
  - cbn [star_lazy after_first]. rewrite match_lit_only.
    destruct (startswith pat (String a t)); [reflexivity|].
    simpl. apply IH.
Qed.

(** What a loop over files adds up, whatever the files give. *)
Lemma fold_contribution (g : string -> nat) : forall files a,
  fold_left
    (fun total file =>
       match read file with
       | Ok content => total + g content
       | Raise _ => total
       end) files a
  = a + list_sum (map (contribution g) files).
Proof.
  induction files as [|f files IH]; intros a; simpl; [lia|].
  rewrite IH. unfold contribution. destruct (read f); lia.
Qed.

(** ** Word counting *)

Lemma front_matter_match prev s :
  match_here re_front_matter prev s =
  match prev with
  | None => if startswith "---" s then after_first "---" (drop 3 s) else None
  | Some _ => None
  end.
Proof.
  unfold re_front_matter. cbn [match_here].
  destruct prev; [reflexivity|].
  rewrite match_lit. destruct (startswith "---" s); [|reflexivity].
  cbn [app match_here]. apply star_lazy_any_lit.
Qed.

(** Past the start of the text [\A] fails, and the text is copied. *)
Lemma sub_front_matter_later repl : forall s a,
  sub_from re_front_matter repl (Some a) 0 s = s.
Proof.
  induction s as [|b s IH]; intros a; [reflexivity|].
  cbn [sub_from]. rewrite front_matter_match. now rewrite IH.
Qed.

Lemma sub_front_matter content :
  sub re_front_matter "" content = strip_leading_run content.
Proof.
  unfold sub, strip_leading_run.
  destruct content as [|a s]; [reflexivity|].
  cbn [sub_from].
  destruct (match_here re_front_matter None (String a s)) as [r|] eqn:E.
  - pose proof (match_here_suffix _ _ _ _ E) as Hs.
    rewrite front_matter_match in E.
    destruct (startswith "---" (String a s)); [|discriminate].
    rewrite E.
    pose proof (after_first_length _ _ _ E) as Hl.
    rewrite drop_length in Hl.
    destruct (String.length (String a s) - String.length r) as [|k] eqn:En.
    { change (String.length "---") with 3 in Hl. lia. }
    rewrite sub_from_skip.
    replace (drop k s) with (drop (S k) (String a s)) by reflexivity.
    rewrite <- En, (drop_suffix _ _ Hs).
    destruct (seen_some k s a) as [b ->].
    now rewrite sub_front_matter_later.
  - rewrite front_matter_match in E.
    rewrite sub_front_matter_later.
    destruct (startswith "---" (String a s)); [now rewrite E | reflexivity].
Qed.

Lemma lstrip_length s : String.length (lstrip s) <= String.length s.
Proof.
  induction s as [|a s IH]; simpl; [lia|].
  destruct (isspace a); simpl; lia.
Qed.

Lemma split_lstrip : forall s, split_from "" (lstrip s) = split_from "" s.
Proof.
  induction s as [|a s IH]; [reflexivity|]. simpl.
  destruct (isspace a) eqn:E; [exact IH|]. simpl. now rewrite E.
Qed.

Lemma split_rstrip : forall s w, split_from w (rstrip s) = split_from w s.
Proof.
  induction s as [|a s IH]; intros w; [reflexivity|].
  cbn [rstrip].
  destruct (is_empty (rstrip s) && isspace a) eqn:E.
  - apply andb_true_iff in E as [E1 E2].
    simpl. rewrite E2, <- IH.
    destruct (rstrip s); [|discriminate]. simpl. now rewrite app_nil_r.
  - simpl. destruct (isspace a); now rewrite IH.
Qed.

Lemma split_strip s : split (strip s) = split s.
Proof. unfold split, strip. now rewrite split_rstrip, split_lstrip. Qed.

Lemma star_space_all : forall s prev,
  star_greedy CSpace (match_here []) prev s = Some (lstrip s).
Proof.
  induction s as [|a s IH]; intros prev; [reflexivity|]. simpl.
  destruct (isspace a); [now rewrite IH | reflexivity].
Qed.

(** [\s+] takes the whole run of whitespace. *)
Lemma whitespace_match prev s :
  match_here re_whitespace prev s =
  match s with
  | EmptyString => None
  | String a s' => if isspace a then Some (lstrip s') else None
  end.
Proof.
  unfold re_whitespace. cbn [match_here].
  destruct s as [|a s]; [reflexivity|]. cbn [accepts].
  destruct (isspace a); [apply star_space_all | reflexivity].
Qed.

(** A run of whitespace made one space leaves the words as they are: at a
    position of the scan, and inside a run that is being dropped. *)
Lemma split_sub_whitespace : forall s,
  (forall prev w,
      split_from w (sub_from re_whitespace " " prev 0 s) = split_from w s)
  /\ (forall prev k,
         k <= String.length s - String.length (lstrip s) ->
         split_from "" (sub_from re_whitespace " " prev k s) = split_from "" s).
Proof.
  induction s as [|a s [IHp IHq]];
    [split; intros; now destruct k || reflexivity|].
  assert (P : forall prev w,
             split_from w (sub_from re_whitespace " " prev 0 (String a s))
             = split_from w (String a s)).
  { intros prev w. cbn [sub_from]. rewrite whitespace_match.
    destruct (isspace a) eqn:E.
    - pose proof (lstrip_length s) as Hl.
      replace (String.length (String a s) - String.length (lstrip s))
        with (S (String.length s - String.length (lstrip s)))
        by (change (String.length (String a s)) with (S (String.length s));
            lia).
      simpl. rewrite E. f_equal. now apply IHq.
    - simpl. rewrite E. apply IHp. }
  split; [exact P|].
  intros prev [|k] Hk; [apply P|].
  cbn [lstrip] in Hk. cbn [sub_from split_from]. destruct (isspace a) eqn:E.
  - simpl. apply IHq. pose proof (lstrip_length s).
    change (String.length (String a s)) with (S (String.length s)) in Hk. lia.
  - lia.
Qed.

Lemma split_normalized s :
  split (strip (sub re_whitespace " " s)) = split s.
Proof.
  rewrite split_strip. unfold split, sub.
  apply (proj1 (split_sub_whitespace s)).
Qed.

(** C1.  The first substitution of [_count_words], commented as removing
    the YAML front matter, ends its match at the first three hyphens after
    the opening ones, wherever they stand, and not at the next line of
    three hyphens.  So of [---\ntitle: a---b\n---\nHello world] it leaves
    [b\n---\nHello world], and the document counts 4 words, two of them
    metadata, where the block between the two lines of three hyphens
    leaves the 2 words of the claim.  The document
    [---\ntitle: x\n---\nHello world] of the claim counts 2. *)
Theorem C1_metadata_counted_as_words :
  sub re_front_matter "" (py "---\ntitle: a---b\n---\nHello world")
  = py "b\n---\nHello world"
  /\ words_in (py "---\ntitle: a---b\n---\nHello world") = 4
  /\ _count_words
       (repo_of_docs
          [File "index.md" (Ok (py "---\ntitle: a---b\n---\nHello world"))])
     = 4
  /\ words_in_as_stated (py "---\ntitle: a---b\n---\nHello world") = 2
  /\ (forall content,
         sub re_front_matter "" content = strip_leading_run content)
  /\ words_in (py "---\ntitle: x\n---\nHello world") = 2
  /\ _count_words
       (repo_of_docs
          [File "index.md" (Ok (py "---\ntitle: x\n---\nHello world"))])
     = 2.
Proof.
  split; [vm_compute; reflexivity|].
  split; [vm_compute; reflexivity|].
  split; [vm_compute; reflexivity|].
  split; [vm_compute; reflexivity|].
  split; [exact sub_front_matter|].
  split; vm_compute; reflexivity.
Qed.

Lemma list_sum_perm l l' : Permutation l l' -> list_sum l = list_sum l'.
Proof. induction 1; simpl; lia. Qed.

(** C2.  The total of [_count_words] is the same for every order in which
    the files are listed: two lists of files that are permutations of each
    other give the same count. *)
Theorem C2_word_count_order (md_files md_files' : list node) :
  Permutation md_files md_files' ->
  count_words_loop md_files = count_words_loop md_files'.
Proof.
  intros H. unfold count_words_loop. rewrite !fold_contribution.
  f_equal. apply list_sum_perm. now apply Permutation_map.
Qed.

Lemma C2_witness :
  count_words_loop [File "a.md" (Ok "one two");
                    File "b.md" (Raise UnicodeDecodeError);
                    File "c.md" (Ok "three")]
  = count_words_loop [File "c.md" (Ok "three");
                      File "a.md" (Ok "one two");
                      File "b.md" (Raise UnicodeDecodeError)].
Proof.
  apply C2_word_count_order.
  apply Permutation_sym, (Permutation_cons_app [_; _] []).
  apply Permutation_refl.
Defined.

(** ** Navigation depth *)

(** C3.  [get_depth] gives 0 for everything that is not a dict, lists
    too, and 1 plus the largest depth of its values for a dict.  So the
    outline [[{"A": [{"B": "page.md"}]}]], whose entry holds a list, has
    depth 1 in the source, where the claim says 2; the empty outline has
    depth 0. *)
Theorem C3_nav_depth_of_nested_outline :
  _calculate_nav_depth nested_outline = Ok 1
  /\ _calculate_nav_depth (VList []) = Ok 0
  /\ (forall l, get_depth (VList l) = 0)
  /\ (forall d,
         get_depth (VDict d)
         = 1 + list_max (map (fun kv => get_depth (snd kv)) d)).
Proof.
  repeat split.
  intros d. simpl. do 2 f_equal. apply map_ext. now intros [k v].
Qed.

(** ** Admonitions *)

Lemma star_lazy_dot_nl : forall t prev,
  star_lazy CDot (match_here [Chr (CLit nl) Once]) prev t = after_first nls t.
Proof.
  induction t as [|a t IH]; intros prev; [reflexivity|].
  cbn [star_lazy match_here after_first accepts startswith nls].
  destruct (Ascii.eqb a nl); [reflexivity|]. simpl. apply IH.
Qed.

(** The pattern matches where the marker stands and a line break follows
    it, up to and with that line break. *)
Lemma admonition_match prev s :
  match_here re_admonition prev s =
  if startswith "!!!" s then after_first nls (drop 3 s) else None.
Proof.
  unfold re_admonition. rewrite match_lit.
  destruct (startswith "!!!" s); [|reflexivity].
  apply star_lazy_dot_nl.
Qed.

Lemma marker_start a s :
  startswith "!!!" (String a s) = true ->
  Ascii.eqb a nl = false
  /\ after_first nls (drop 3 (String a s)) = after_first nls s.
Proof.
  cbn [startswith].
  destruct (Ascii.eqb_spec a "!"); [subst a|discriminate].
  destruct s as [|b s]; [discriminate|].
  destruct (Ascii.eqb_spec b "!"); [subst b|discriminate].
  destruct s as [|c s]; [discriminate|].
  destruct (Ascii.eqb_spec c "!"); [subst c|discriminate].
  intros _. split; reflexivity.
Qed.

Lemma marker_scan_no_nl : forall s found,
  after_first nls s = None -> marker_scan found s = 0.
Proof.
  induction s as [|a s IH]; intros found; [reflexivity|].
  cbn [after_first startswith nls marker_scan].
  destruct (Ascii.eqb a nl); [discriminate|]. simpl. apply IH.
Qed.

Lemma marker_scan_found : forall s r,
  after_first nls s = Some r -> marker_scan true s = S (marker_scan false r).
Proof.
  induction s as [|a s IH]; intros r; [discriminate|].
  cbn [after_first startswith nls marker_scan].
  destruct (Ascii.eqb a nl); simpl.
  - now intros [= ->].
  - apply IH.
Qed.

(** [findall] against the scan of the lines: at a position of the scan,
    and inside a match, whose end is the next line break. *)
Lemma findall_admonition : forall s,
  (forall prev,
      List.length (findall_from re_admonition prev 0 s) = marker_scan false s)
  /\ (forall prev k r,
         after_first nls s = Some r ->
         k = String.length s - String.length r ->
         List.length (findall_from re_admonition prev k s)
         = marker_scan false r).
Proof.
  induction s as [|a s [IHp IHq]]; [split; [reflexivity | discriminate]|].
  split.
  - intros prev. cbn [findall_from]. rewrite admonition_match.
    destruct (startswith "!!!" (String a s)) eqn:E.
    + destruct (marker_start _ _ E) as [Ha Hr]. rewrite Hr.
      cbn [marker_scan]. rewrite Ha, E. cbn [orb].
      destruct (after_first nls s) as [r|] eqn:Er.
      * pose proof (suffix_length _ _ (after_first_suffix _ _ _ Er)) as Hl.
        rewrite (marker_scan_found _ _ Er).
        change (String.length (String a s)) with (S (String.length s)).
        replace (S (String.length s) - String.length r)
          with (S (String.length s - String.length r)) by lia.
        cbn [List.length]. f_equal. now apply IHq.
      * rewrite (marker_scan_no_nl _ _ Er), IHp.
        now apply marker_scan_no_nl.
    + cbn [marker_scan]. rewrite E, IHp. cbn [orb].
      destruct (Ascii.eqb a nl); reflexivity.
  - intros prev k r. cbn [after_first startswith nls].
    destruct (Ascii.eqb a nl) eqn:Ha; cbn [andb].
    + intros [= <-] ->. cbn [drop].
      change (String.length (String a s)) with (S (String.length s)).
      replace (S (String.length s) - String.length s) with 1 by lia.
      cbn [findall_from]. apply IHp.
    + intros Hr ->.
      pose proof (suffix_length _ _ (after_first_suffix _ _ _ Hr)) as Hl.
      change (String.length (String a s)) with (S (String.length s)).
      replace (S (String.length s) - String.length r)
        with (S (String.length s - String.length r)) by lia.
      cbn [findall_from]. now apply IHq.
Qed.

Lemma split_nl_cons s : exists l rest, split_nl s = l :: rest.
Proof.
  destruct s as [|a s]; simpl; [eauto|].
  destruct (Ascii.eqb a nl); [eauto|].
  destruct (split_nl s); eauto.
Qed.

(** A prefix without a line break is a prefix of the first line. *)
Lemma startswith_first_line p :
  contains nls p = false ->
  forall s, startswith p s = startswith p (first_line s).
Proof.
  unfold first_line.
  induction p as [|a p IH]; intros Hp s; [reflexivity|].
  cbn [contains startswith nls] in Hp.
  destruct (Ascii.eqb a nl) eqn:Ha; [discriminate|]. cbn [andb orb] in Hp.
  destruct s as [|b s]; [reflexivity|]. cbn [split_nl].
  destruct (Ascii.eqb b nl) eqn:Hb.
  - cbn [hd startswith].
    apply Ascii.eqb_eq in Hb. subst b.
    now rewrite Ascii.eqb_sym, Ha.
  - destruct (split_nl_cons s) as (l & rest & E).
    specialize (IH Hp s). rewrite E in IH |- *. cbn [hd] in IH |- *.
    cbn [startswith]. now rewrite IH.
Qed.

Lemma count_removelast (l x : string) (rest : list string) :
  count (contains "!!!") (removelast (l :: x :: rest))
  = (if contains "!!!" l then 1 else 0)
    + count (contains "!!!") (removelast (x :: rest)).
Proof.
  unfold count.
  change (removelast (l :: x :: rest)) with (l :: removelast (x :: rest)).
  cbn [filter]. now destruct (contains "!!!" l).
Qed.

Lemma marker_scan_lines : forall s found,
  marker_scan found s =
  match split_nl s with
  | l :: (_ :: _) as rest =>
      (if found || contains "!!!" l then 1 else 0)
      + count (contains "!!!") (removelast rest)
  | _ => 0
  end.
Proof.
  induction s as [|a s IH]; intros found; [reflexivity|].
  cbn [marker_scan split_nl].
  destruct (split_nl_cons s) as (l & rest & E).
  destruct (Ascii.eqb a nl) eqn:Ha.
  - rewrite IH, E, orb_false_r. f_equal.
    destruct rest as [|x rest]; [reflexivity|].
    now rewrite count_removelast.
  - rewrite IH, E.
    destruct rest as [|x rest]; [reflexivity|].
    f_equal.
    rewrite (startswith_first_line "!!!" eq_refl (String a s)).
    unfold first_line. cbn [split_nl]. rewrite Ha, E. cbn [hd].
    cbn [contains]. now rewrite orb_assoc.
Qed.

(** The matches of a text are its lines that hold the marker, the last
    piece, which no line break closes, left out. *)
Lemma findall_admonition_lines s :
  List.length (findall re_admonition s) = closed_lines_holding_marker s.
Proof.
  unfold closed_lines_holding_marker, findall.
  rewrite (proj1 (findall_admonition s)), marker_scan_lines.
  destruct (split_nl_cons s) as (l & rest & E). rewrite E.
  destruct rest as [|x rest]; [reflexivity|].
  now rewrite count_removelast.
Qed.

(** C4.  [_count_admonitions], documented as counting admonition blocks,
    counts the matches of [!!!.*?\n]: the pattern has no line anchor and
    needs the line break.  A document adds one for each of its lines that
    holds [!!!] at any column and is closed by a line break, and nothing
    when it cannot be read.  So the one line [wow!!!] counts 1 though no
    line begins with the marker, and [!!! note] on a last line without a
    line break counts 0 though that line begins with it. *)
Theorem C4_midline_marker_counted :
  _count_admonitions midline_repo = 1
  /\ list_sum (map (contribution lines_beginning_with_marker)
                   (docs_glob ".md" midline_repo)) = 0
  /\ _count_admonitions last_line_repo = 0
  /\ list_sum (map (contribution lines_beginning_with_marker)
                   (docs_glob ".md" last_line_repo)) = 1
  /\ (forall r,
         _count_admonitions r
         = list_sum (map (contribution closed_lines_holding_marker)
                         (docs_glob ".md" r))).
Proof.
  split; [vm_compute; reflexivity|].
  split; [vm_compute; reflexivity|].
  split; [vm_compute; reflexivity|].
  split; [vm_compute; reflexivity|].
  intros r. unfold _count_admonitions, count_matches.
  rewrite fold_contribution. simpl. f_equal.
  apply map_ext_in. intros f Hf. unfold contribution.
  destruct (read f) as [c|] eqn:E; [|reflexivity].
  apply findall_admonition_lines.
Qed.

(** ** Simulations and glossary terms *)

Lemma counted_filter {A : Type} (f : A -> bool) (P : A -> Prop) :
  (forall x, f x = true <-> P x) ->
  forall l, counted P l (List.length (filter f l)).
Proof.
  intros H. induction l as [|x l IH]; simpl; [constructor|].
  destruct (f x) eqn:E.
  - simpl. constructor; [now apply H | exact IH].
  - constructor; [|exact IH]. intros Hx. apply H in Hx. congruence.
Qed.

Lemma is_simulation_test d :
  is_dir d && negb (startswith "_" (name d)) = true <-> is_simulation d.
Proof.
  unfold is_simulation. rewrite andb_true_iff, negb_true_iff.
  split; intros [Hd Hn]; split; auto.
  - intros rest E. rewrite E in Hn. discriminate.
  - destruct (name d) as [|a nm]; [reflexivity|]. simpl.
    destruct (Ascii.eqb_spec a "_"); [|reflexivity].
    subst a. now destruct (Hn nm).
Qed.

(** C5.  The simulation count is the number of entries right below
    [docs/sims] that are directories and whose name does not begin with an
    underscore; without [docs/], or without [sims] in it, the count is 0,
    and no case raises. *)
Theorem C5_count_microsims (r : repo) :
  (docs r = None -> _count_microsims r = 0)
  /\ (forall entries,
         docs r = Some entries -> child "sims" entries = None ->
         _count_microsims r = 0)
  /\ (forall entries sims,
         docs r = Some entries -> child "sims" entries = Some sims ->
         counted is_simulation (children sims) (_count_microsims r)).
Proof.
  unfold _count_microsims, sims_dir. split; [|split].
  - now intros ->.
  - now intros entries -> ->.
  - intros entries sims -> ->.
    apply counted_filter, is_simulation_test.
Qed.

Lemma C5_witness :
  counted is_simulation
    [Dir "pendulum" []; Dir "_template" []; File "index.md" (Ok "")] 1.
Proof.
  exact (proj2 (proj2 (C5_count_microsims underscore_repo))
               _ _ eq_refl eq_refl).
Defined.

(** C6.  A line of four [#] and whitespace alone is counted when a later
    line has text: [\s+] runs over the line break, so the glossary
    [#### \nfoo\n], which has no heading line, counts 1.  Headings with a
    term are counted, one each, and a heading of five [#] is not. *)
Theorem C6_bare_heading_counted :
  _count_glossary_terms bare_heading_repo = 1
  /\ term_heading_lines (py "#### \nfoo\n") = 0
  /\ findall re_glossary_term (py "#### \nfoo\n") = [py "#### \nfoo"]
  /\ _count_glossary_terms two_terms_repo = 2
  /\ _count_glossary_terms (repo_of_docs []) = 0.
Proof. repeat split; vm_compute; reflexivity. Qed.

(** ** Complexity of the simulations *)



Lemma total_fold_tally : forall ds h,
  total (fold_left tally ds h) = total h + List.length (filter is_dir ds).
Proof.
  unfold total.
  induction ds as [|d ds IH]; intros h; simpl; [lia|].
  rewrite IH. unfold tally.
  destruct (is_dir d); simpl; [|lia].
  destruct (code_lines d <? 100); [simpl; lia|].
  destruct (code_lines d <? 300); simpl; lia.
Qed.

(** C10.  The three buckets of the histogram add up to the number of
    directories right below [docs/sims], those whose name begins with an
    underscore too; the simulation count is never more, and it is less
    where such a directory exists: 1 against 2 for [pendulum] and
    [_template]. *)
Theorem C10_histogram_total :
  (forall r,
      total (_analyze_microsim_complexity r) = List.length (sim_directories r))
  /\ (forall r,
         _count_microsims r <= total (_analyze_microsim_complexity r))
  /\ _count_microsims underscore_repo = 1
  /\ total (_analyze_microsim_complexity underscore_repo) = 2.
Proof.
  assert (H : forall r, total (_analyze_microsim_complexity r)
                        = List.length (sim_directories r)).
  { intros r. unfold _analyze_microsim_complexity, sim_directories.
    destruct (sims_dir r) as [ds|]; [|reflexivity].
    now rewrite total_fold_tally. }
  split; [exact H|]. split; [|split; reflexivity].
  intros r. rewrite H. unfold _count_microsims, sim_directories.
  destruct (sims_dir r) as [ds|]; [|lia].
  induction ds as [|d ds IH]; cbn [filter List.length]; [lia|].
  destruct (is_dir d); cbn [andb List.length]; [|exact IH].
  destruct (negb (startswith "_" (name d))); cbn [List.length]; lia.
Qed.

(** ** The configuration *)

Lemma get_dict v key default x :
  get v key default = Ok x ->
  exists d, v = VDict d
            /\ x = match lookup key d with Some y => y | None => default end.
Proof.
  destruct v; try discriminate. simpl. intros H.
  exists d. split; [reflexivity|].
  destruct (lookup key d); now injection H.
Qed.

Lemma truthy_found d key default :
  truthy default = false ->
  truthy (match lookup key d with Some y => y | None => default end) = true ->
  exists y, lookup key d = Some y /\ truthy y = true.
Proof.
  destruct (lookup key d); [eauto | congruence].
Qed.

Lemma analytics_enabled_iff (r : repo) :
  _check_analytics_config r = true <->
  exists provider property,
    analytics_pair r provider property
    /\ truthy provider = true /\ truthy property = true.
Proof.
  unfold _check_analytics_config, analytics_pair. split.
  - destruct (mkdocs_yml r) as [config|]; [|discriminate].
    cbn [bind try_except].
    destruct (get config "extra" (VDict [])) as [extra|] eqn:E1;
      [|discriminate].
    cbn [bind].
    destruct (get extra "analytics" (VDict [])) as [analytics|] eqn:E2;
      [|discriminate].
    cbn [bind].
    destruct (get analytics "provider" VNone) as [provider|] eqn:E3;
      [|discriminate].
    cbn [bind].
    destruct (truthy provider) eqn:Tp; [|discriminate].
    destruct (get analytics "property" VNone) as [property|] eqn:E4;
      [|discriminate].
    cbn [bind]. intros Tq.
    apply get_dict in E1 as (c & -> & ->).
    apply get_dict in E2 as (e & He & ->).
    apply get_dict in E3 as (a & Ha & ->).
    apply get_dict in E4 as (a' & Ha' & ->).
    rewrite Ha in Ha'. injection Ha' as <-.
    apply truthy_found in Tp as (p & Lp & Tp); [|reflexivity].
    apply truthy_found in Tq as (q & Lq & Tq); [|reflexivity].
    assert (La : lookup "analytics" e = Some (VDict a)).
    { destruct (lookup "analytics" e); [now subst|].
      injection Ha as <-. discriminate. }
    assert (Le : lookup "extra" c = Some (VDict e)).
    { destruct (lookup "extra" c); [now subst|].
      injection He as <-. discriminate. }
    exists p, q. split; [|now split]. exists c, e, a. auto.
  - intros (p & q & (c & e & a & -> & Le & La & Lp & Lq) & Tp & Tq).
    simpl. rewrite Le. simpl. rewrite La. simpl. rewrite Lp. simpl.
    rewrite Tp. rewrite Lq. simpl. exact Tq.
Qed.

(** C8.  The analytics flag is true exactly when the configuration is a
    mapping whose [extra] holds an [analytics] mapping with a provider
    and a property that are both non-empty, which is [bool(v)] of Python:
    for two strings, that neither is the empty string.  A configuration
    that does not load gives false. *)
Theorem C8_analytics_enabled (r : repo) :
  (_check_analytics_config r = true <->
   exists provider property,
     analytics_pair r provider property
     /\ truthy provider = true /\ truthy property = true)
  /\ (forall e, mkdocs_yml r = Raise e -> _check_analytics_config r = false)
  /\ (forall p q,
         analytics_pair r (VStr p) (VStr q) ->
         _check_analytics_config r = negb (is_empty p) && negb (is_empty q)).
Proof.
  split; [apply analytics_enabled_iff|]. split.
  - intros e E. unfold _check_analytics_config. now rewrite E.
  - intros p q (c & e & a & E & Le & La & Lp & Lq).
    unfold _check_analytics_config. rewrite E. simpl.
    rewrite Le. simpl. rewrite La. simpl. rewrite Lp. simpl.
    destruct (is_empty p); [reflexivity|]. simpl. now rewrite Lq.
Qed.

Lemma C8_witness : _check_analytics_config analytics_repo = true.
Proof.
  apply (proj1 (C8_analytics_enabled analytics_repo)).
  exists (VStr "google"), (VStr "G-1").
  split; [|split; reflexivity].
  do 3 eexists. repeat split; reflexivity.
Defined.

Lemma nav_structure_value (r : repo) :
  try_except
    (mkdocs_config <- mkdocs_yml r ;; get mkdocs_config "nav" (VList []))
    (VList [])
  = nav_value r.
Proof.
  unfold nav_value. destruct (mkdocs_yml r) as [[]|]; try reflexivity.
  simpl. now destruct (lookup "nav" d).
Qed.

(** C9.  [analyze] raises on a configuration whose [nav] is null: the
    outline is read under [try], but its depth is computed after it, and
    the loop over [None] raises [TypeError].  [analyze] returns the
    report exactly when the value of [nav] can be looped over, which
    holds when the configuration does not load. *)
Theorem C9_analyze_raises_on_null_nav :
  analyze null_nav_repo = Raise TypeError
  /\ (forall r, (exists m, analyze r = Ok m) <-> iterable (nav_value r))
  /\ (forall r e, mkdocs_yml r = Raise e -> exists m, analyze r = Ok m).
Proof.
  assert (H : forall r, (exists m, analyze r = Ok m) <-> iterable (nav_value r)).
  { intros r. unfold analyze, _analyze_content_structure.
    rewrite nav_structure_value. unfold _calculate_nav_depth.
    destruct (nav_value r); simpl; split; intros H; auto;
      try (destruct H; discriminate); try contradiction; eauto. }
  split; [reflexivity|]. split; [exact H|].
  intros r e E. apply H. unfold nav_value. now rewrite E.
Qed.

(** * More properties *)

Import More Report MoreIbook CheckSites.

(** ** Outlines *)

Lemma list_max_zero {A : Type} (f : A -> nat) (l : list A) :
  (forall x, In x l -> f x = 0) -> list_max (map f l) = 0.
Proof.
  induction l as [|x l IH]; intros H; [reflexivity|].
  change (list_max (map f (x :: l)))
    with (Nat.max (f x) (list_max (map f l))).
  rewrite (H x (or_introl eq_refl)), IH; [reflexivity|].
  intros y Hy. apply H. now right.
Qed.

Lemma get_depth_entry v :
  outline_entry v = true -> get_depth v = if is_dict v then 1 else 0.
Proof.
  destruct v as [| | | | |d]; try reflexivity.
  cbn [outline_entry is_dict get_depth]. intros H.
  rewrite list_max_zero; [reflexivity|].
  intros [k v] Hin.
  rewrite forallb_forall in H. specialize (H _ Hin). cbn [snd] in H.
  now destruct v.
Qed.

(** X1.  For an outline in the form mkdocs reads, where no value under a
    title is itself a mapping, the navigation depth is 1 when an entry is
    a mapping and 0 when none is: sections inside sections add nothing. *)
Theorem nav_depth_of_outline (items : list value) :
  forallb outline_entry items = true ->
  _calculate_nav_depth (VList items)
  = Ok (if existsb is_dict items then 1 else 0).
Proof.
  intros H. unfold _calculate_nav_depth. cbn [iter bind]. f_equal.
  induction items as [|v items IH]; [reflexivity|].
  cbn [forallb] in H. apply andb_true_iff in H as [Hv Hi].
  change (list_max (map get_depth (v :: items)))
    with (Nat.max (get_depth v) (list_max (map get_depth items))).
  cbn [existsb]. rewrite (IH Hi), (get_depth_entry _ Hv).
  destruct (is_dict v), (existsb is_dict items); reflexivity.
Qed.

Lemma nav_depth_of_outline_witness :
  _calculate_nav_depth nested_outline = Ok 1.
Proof.
  exact (nav_depth_of_outline
           [VDict [("A", VList [VDict [("B", VStr "page.md")]])]] eq_refl).
Defined.

(** ** Flags of the configuration *)

(** X3.  When mobile navigation is reported, the required field [theme]
    is reported present. *)
Theorem responsive_implies_theme (r : repo) :
  mobile_navigation (_check_responsive_design r) = true ->
  theme (_verify_build_config r) = true.
Proof.
  unfold _check_responsive_design, _verify_build_config.
  cbn [mobile_navigation].
  destruct (mkdocs_yml r) as [config|]; [|discriminate].
  destruct config as [| | | | |d]; try discriminate.
  cbn [bind try_except get key_in].
  destruct (lookup "theme" d) as [t|] eqn:E; [|discriminate].
  intros _. destruct (lookup "site_name" d), (lookup "nav" d); reflexivity.
Qed.

Lemma responsive_implies_theme_witness :
  theme (_verify_build_config tabs_repo) = true.
Proof. exact (responsive_implies_theme tabs_repo eq_refl). Defined.

(** X2.  In a report of [analyze], a navigation depth above 0 comes with
    the required field [nav] reported present. *)
Theorem depth_implies_nav (r : repo) (m : metrics_t) :
  analyze r = Ok m ->
  0 < navigation_depth (content_structure m) ->
  nav (build_config_complete (technical_quality m)) = true.
Proof.
  unfold analyze. intros Ha.
  destruct (_analyze_content_structure r) as [cs|] eqn:Ecs; [|discriminate].
  cbn [bind] in Ha. injection Ha as <-.
  cbn [content_structure technical_quality _analyze_technical_quality
       build_config_complete].
  unfold _analyze_content_structure in Ecs.
  rewrite nav_structure_value in Ecs.
  destruct (_calculate_nav_depth (nav_value r)) as [n|] eqn:En;
    [|discriminate].
  cbn [bind] in Ecs. injection Ecs as <-. cbn [navigation_depth].
  unfold nav_value in En. unfold _verify_build_config.
  destruct (mkdocs_yml r) as [config|];
    [|injection En as <-; lia].
  destruct config as [| | | | |d]; try (injection En as <-; lia).
  cbn [key_in].
  destruct (lookup "nav" d) as [v|]; [|injection En as <-; lia].
  intros _.
  destruct (lookup "site_name" d), (lookup "theme" d); reflexivity.
Qed.

Lemma depth_implies_nav_witness :
  exists m, analyze section_repo = Ok m
            /\ nav (build_config_complete (technical_quality m)) = true.
Proof.
  eexists. split; [reflexivity|].
  apply (depth_implies_nav section_repo _ eq_refl).
  vm_compute. lia.
Defined.

(** ** A configuration that does not load *)

(** X6.  When [mkdocs.yml] does not load, or is empty, [analyze] returns
    the report of the document tree with the defaults for all that is read
    from the configuration: depth 0, no analytics, no required field, no
    mobile navigation. *)
Theorem analyze_without_config (r : repo) :
  (exists e, mkdocs_yml r = Raise e) \/ mkdocs_yml r = Ok VNone ->
  analyze r =
  Ok {| basic_metrics := _get_basic_metrics r;
        content_structure :=
          {| navigation_depth := 0;
             admonitions := _count_admonitions r;
             code_examples := _count_code_blocks r |};
        engagement_features :=
          {| microsim_complexity := _analyze_microsim_complexity r;
             has_analytics := false |};
        technical_quality :=
          {| build_config_complete := no_fields;
             responsive_design := {| mobile_navigation := false |} |} |}.
Proof.
  intros H. unfold analyze, _analyze_content_structure,
    _analyze_engagement_features, _analyze_technical_quality,
    _check_analytics_config, _verify_build_config, _check_responsive_design.
  destruct H as [[e ->] | ->]; reflexivity.
Qed.

Lemma analyze_without_config_witness :
  exists m, analyze (repo_of_docs []) = Ok m
            /\ navigation_depth (content_structure m) = 0
            /\ build_config_complete (technical_quality m) = no_fields.
Proof.
  eexists. split; [|split].
  - apply (analyze_without_config (repo_of_docs [])).
    left. exists OSError. reflexivity.
  - reflexivity.
  - reflexivity.
Defined.

(** X4.  Mobile navigation is reported exactly when the configuration is
    a mapping whose [theme] is a mapping whose [features] hold
    [navigation.tabs.mobile]; a theme given by its name alone
    ([theme: material]) reports false. *)
Theorem mobile_navigation_flag (r : repo) :
  (mobile_navigation (_check_responsive_design r) = true <->
   exists config theme_cfg features,
     mkdocs_yml r = Ok (VDict config)
     /\ lookup "theme" config = Some (VDict theme_cfg)
     /\ lookup "features" theme_cfg = Some features
     /\ key_in "navigation.tabs.mobile" features = Ok true)
  /\ (forall config theme_name,
         mkdocs_yml r = Ok (VDict config) ->
         lookup "theme" config = Some (VStr theme_name) ->
         mobile_navigation (_check_responsive_design r) = false).
Proof.
  unfold _check_responsive_design. cbn [mobile_navigation]. split; [split|].
  - destruct (mkdocs_yml r) as [config|]; [|discriminate].
    destruct config as [| | | | |d]; try discriminate.
    cbn [bind try_except Py.get].
    destruct (lookup "theme" d) as [t|] eqn:Et; [|discriminate].
    cbn [bind]. destruct t as [| | | | |t]; try discriminate.
    cbn [bind Py.get].
    destruct (lookup "features" t) as [f|] eqn:Ef; [|discriminate].
    cbn [bind]. intros H. exists d, t, f. repeat split; auto.
    destruct (key_in "navigation.tabs.mobile" f) as [[]|];
      cbn in H; congruence.
  - intros (d & t & f & -> & Et & Ef & Hk).
    cbn [bind try_except Py.get]. rewrite Et. cbn [bind Py.get].
    rewrite Ef. cbn [bind]. now rewrite Hk.
  - intros d nm -> Et. cbn [bind try_except Py.get]. now rewrite Et.
Qed.

Lemma mobile_navigation_flag_witness :
  mobile_navigation (_check_responsive_design tabs_repo) = true.
Proof.
  apply (proj1 (mobile_navigation_flag tabs_repo)).
  do 3 eexists. repeat split; reflexivity.
Defined.

(** X5.  For a configuration that is a mapping, each of [site_name],
    [theme] and [nav] is reported present exactly when the key is there,
    whatever its value, null too; a configuration that does not load, or
    loads as null, a truth value or a number, reports all three absent. *)
Theorem required_fields_flags (r : repo) :
  (forall config,
      mkdocs_yml r = Ok (VDict config) ->
      (site_name (_verify_build_config r) = true
       <-> exists v, lookup "site_name" config = Some v)
      /\ (theme (_verify_build_config r) = true
          <-> exists v, lookup "theme" config = Some v)
      /\ (nav (_verify_build_config r) = true
          <-> exists v, lookup "nav" config = Some v))
  /\ ((exists e, mkdocs_yml r = Raise e)
      \/ mkdocs_yml r = Ok VNone
      \/ (exists b, mkdocs_yml r = Ok (VBool b))
      \/ (exists z, mkdocs_yml r = Ok (VInt z)) ->
      _verify_build_config r = no_fields).
Proof.
  unfold _verify_build_config. split.
  - intros d ->. cbn [key_in].
    destruct (lookup "site_name" d), (lookup "theme" d), (lookup "nav" d);
      cbn; repeat split; intros H; eauto;
      try discriminate; destruct H; discriminate.
  - intros [[e ->] | [-> | [[b ->] | [z ->]]]]; reflexivity.
Qed.

Lemma required_fields_flags_witness :
  site_name (_verify_build_config null_keys_repo) = true
  /\ nav (_verify_build_config null_keys_repo) = true.
Proof.
  destruct (proj1 (required_fields_flags null_keys_repo) _ eq_refl)
    as (Hs & _ & Hn).
  split; [apply Hs | apply Hn]; eexists; reflexivity.
Defined.

(** ** Line breaks read by a match *)

Lemma count_nl_append (s t : string) :
  count_nl (s ++ t) = count_nl s + count_nl t.
Proof. induction s as [|a s IH]; simpl; [reflexivity | rewrite IH; lia]. Qed.

Lemma count_nl_suffix r s : suffix_of r s -> count_nl r <= count_nl s.
Proof. intros [pre ->]. rewrite count_nl_append. lia. Qed.

Section LineBreaks.
Variable k : cont.
Variable n : nat.
Hypothesis k_reads : forall prev s r,
  k prev s = Some r -> count_nl r + n <= count_nl s.

Lemma star_greedy_reads c prev s r :
  star_greedy c k prev s = Some r -> count_nl r + n <= count_nl s.
Proof.
  revert prev. induction s as [|a s IH]; intros prev; cbn [star_greedy].
  - apply k_reads.
  - destruct (accepts c a); [|apply k_reads].
    destruct (star_greedy c k (Some a) s) as [r'|] eqn:E; [|apply k_reads].
    intros [= ->]. specialize (IH _ E). cbn [count_nl]. lia.
Qed.

Lemma star_lazy_reads c prev s r :
  star_lazy c k prev s = Some r -> count_nl r + n <= count_nl s.
Proof.
  revert prev. induction s as [|a s IH]; intros prev; cbn [star_lazy].
  - destruct (k prev "") eqn:E; [|discriminate].
    intros [= ->]. now apply k_reads in E.
  - destruct (k prev (String a s)) eqn:E.
    + intros [= ->]. now apply k_reads in E.
    + destruct (accepts c a); [|discriminate].
      intros H. specialize (IH _ H). cbn [count_nl]. lia.
Qed.
End LineBreaks.

Lemma match_here_reads p : forall prev s r,
  match_here p prev s = Some r -> count_nl r + needs_nl p <= count_nl s.
Proof.
  induction p as [|i p IH]; intros prev s r.
  - cbn. intros [= ->]. lia.
  - destruct i as [c q| | |].
    + assert (Hlater : forall prev s r,
                 match_here p prev s = Some r ->
                 count_nl r + needs_nl p <= count_nl s) by exact IH.
      destruct q.
      * cbn [match_here]. destruct s as [|a s]; [discriminate|].
        destruct (accepts c a) eqn:Ea; [|discriminate].
        intros H. specialize (IH _ _ _ H).
        destruct c; cbn [needs_nl count_nl]; try lia.
        cbn [accepts] in Ea. apply Ascii.eqb_eq in Ea. subst a0.
        lia.
      * replace (needs_nl (Chr c Opt :: p)) with (needs_nl p)
          by now destruct c.
        cbn [match_here]. destruct s as [|a s]; [apply IH|].
        destruct (accepts c a); [|apply IH].
        destruct (match_here p (Some a) s) eqn:E; [|apply IH].
        intros [= ->]. specialize (IH _ _ _ E). cbn [count_nl]. lia.
      * replace (needs_nl (Chr c Star :: p)) with (needs_nl p)
          by now destruct c.
        cbn [match_here]. now apply star_greedy_reads.
      * replace (needs_nl (Chr c Plus :: p)) with (needs_nl p)
          by now destruct c.
        cbn [match_here]. destruct s as [|a s]; [discriminate|].
        destruct (accepts c a); [|discriminate].
        intros H. apply (star_greedy_reads _ _ Hlater) in H.
        cbn [count_nl]. lia.
      * replace (needs_nl (Chr c StarLazy :: p)) with (needs_nl p)
          by now destruct c.
        cbn [match_here]. now apply star_lazy_reads.
    + cbn [match_here needs_nl]. destruct prev; [discriminate | apply IH].
    + cbn [match_here needs_nl]. destruct prev as [a|]; [|apply IH].
      destruct (Ascii.eqb a nl); [apply IH | discriminate].
    + cbn [match_here needs_nl]. destruct s as [|a s]; [apply IH|].
      destruct (Ascii.eqb a nl); [apply IH | discriminate].
Qed.

Lemma drop_of_match a s r k :
  suffix_of r (String a s) ->
  String.length (String a s) - String.length r = S k ->
  drop k s = r.
Proof.
  intros Hs Hk. rewrite <- (drop_suffix _ _ Hs), Hk. reflexivity.
Qed.

Lemma findall_reads p : forall s prev k,
  needs_nl p * List.length (findall_from p prev k s) <= count_nl (drop k s).
Proof.
  induction s as [|a s IH]; intros prev k.
  - cbn. lia.
  - destruct k as [|k]; [|cbn [findall_from drop]; apply IH].
    cbn [findall_from drop].
    assert (Hnext : needs_nl p * List.length (findall_from p (Some a) 0 s)
                    <= count_nl (String a s)).
    { specialize (IH (Some a) 0). cbn [drop count_nl] in *.
      replace (drop 0 s) with s in IH by now destruct s. lia. }
    destruct (match_here p prev (String a s)) as [r|] eqn:E; [|exact Hnext].
    destruct (String.length (String a s) - String.length r) as [|j] eqn:Ej;
      [exact Hnext|].
    pose proof (match_here_suffix _ _ _ _ E) as Hs.
    pose proof (match_here_reads _ _ _ _ E) as Hr.
    specialize (IH (Some a) j). rewrite (drop_of_match _ _ _ _ Hs Ej) in IH.
    cbn [List.length]. lia.
Qed.

Lemma contribution_bound (n : nat) (g h : string -> nat) (files : list node) :
  (forall c, n * g c <= h c) ->
  n * list_sum (map (contribution g) files)
  <= list_sum (map (contribution h) files).
Proof.
  intros H. induction files as [|f fs IH]; [cbn; lia|].
  change (list_sum (map (contribution g) (f :: fs)))
    with (contribution g f + list_sum (map (contribution g) fs)).
  change (list_sum (map (contribution h) (f :: fs)))
    with (contribution h f + list_sum (map (contribution h) fs)).
  rewrite Nat.mul_add_distr_l.
  apply Nat.add_le_mono; [|exact IH].
  unfold contribution. destruct (read f) as [c|]; [apply H | lia].
Qed.

Lemma findall_line_breaks p s :
  needs_nl p * List.length (findall p s) <= count_nl s.
Proof.
  unfold findall. pose proof (findall_reads p s None 0) as H.
  replace (drop 0 s) with s in H by now destruct s. exact H.
Qed.

(** X7.  Every counted code example takes two line breaks of its own
    and every counted admonition one: twice the code examples, and the
    admonitions, are at most the line breaks of the documents that can be
    read. *)
Theorem code_blocks_need_two_line_breaks (r : repo) :
  2 * _count_code_blocks r
  <= list_sum (map (contribution count_nl) (docs_glob ".md" r))
  /\ _count_admonitions r
     <= list_sum (map (contribution count_nl) (docs_glob ".md" r)).
Proof.
  unfold _count_code_blocks, _count_admonitions, count_matches.
  rewrite !fold_contribution. cbn [Nat.add]. split.
  - apply contribution_bound. intros c.
    apply (findall_line_breaks re_code_example).
  - rewrite <- (Nat.mul_1_l (list_sum (map (contribution _) _))) at 1.
    apply contribution_bound. intros c.
    apply (findall_line_breaks re_admonition).
Qed.

(** ** Extensions *)

Lemma endswith_suffix p : forall s, endswith p s = true <-> suffix_of p s.
Proof.
  induction s as [|a s IH]; cbn [endswith].
  - rewrite orb_false_r, String.eqb_eq. split.
    + intros <-. apply suffix_refl.
    + intros [pre E]. destruct pre; [exact E | discriminate].
  - rewrite orb_true_iff, String.eqb_eq, IH. split.
    + intros [<- | H]; [apply suffix_refl | now apply suffix_cons].
    + intros [pre E]. destruct pre as [|b pre]; [left; exact E|].
      right. injection E as _ ->. now exists pre.
Qed.

Lemma suffixes_of_one_length p q s :
  suffix_of p s -> suffix_of q s -> String.length p = String.length q -> p = q.
Proof.
  intros Hp Hq E.
  rewrite <- (drop_suffix _ _ Hp), <- (drop_suffix _ _ Hq). now rewrite E.
Qed.

Lemma suffix_trans p q s : suffix_of p q -> suffix_of q s -> suffix_of p s.
Proof.
  intros [a ->] [b ->]. exists (b ++ a)%string.
  induction b as [|c b IH]; [reflexivity|]. simpl. now rewrite IH.
Qed.

Lemma one_extension nm :
  (endswith ".md" nm && endswith ".png" nm = false)
  /\ (endswith ".md" nm && endswith ".jpg" nm = false)
  /\ (endswith ".png" nm && endswith ".jpg" nm = false).
Proof.
  repeat split; apply andb_false_iff;
    match goal with
    | |- endswith ?p nm = false \/ endswith ?q nm = false =>
        destruct (endswith p nm) eqn:Ep; [right | now left];
        destruct (endswith q nm) eqn:Eq; [exfalso | reflexivity];
        apply endswith_suffix in Ep, Eq
    end.
  - assert (H : suffix_of "png" nm)
      by (eapply suffix_trans; [exists "."; reflexivity | exact Eq]).
    discriminate (suffixes_of_one_length _ _ _ Ep H eq_refl).
  - assert (H : suffix_of "jpg" nm)
      by (eapply suffix_trans; [exists "."; reflexivity | exact Eq]).
    discriminate (suffixes_of_one_length _ _ _ Ep H eq_refl).
  - discriminate (suffixes_of_one_length _ _ _ Ep Eq eq_refl).
Qed.

Lemma filters_apart {A : Type} (f g h : A -> bool) (l : list A) :
  (forall x, f x && g x = false) ->
  (forall x, f x && h x = false) ->
  (forall x, g x && h x = false) ->
  List.length (filter f l) + (List.length (filter g l)
                              + List.length (filter h l))
  <= List.length l.
Proof.
  intros Hfg Hfh Hgh. induction l as [|x l IH]; [cbn; lia|].
  cbn [filter]. specialize (Hfg x). specialize (Hfh x). specialize (Hgh x).
  destruct (f x), (g x), (h x); try discriminate; cbn [List.length]; lia.
Qed.

Lemma glossary_is_listed entries g :
  child "glossary.md" entries = Some g -> rglob ".md" entries <> [].
Proof.
  unfold child, rglob. intros H. apply find_some in H as [Hin Hn].
  apply String.eqb_eq in Hn.
  assert (Hg : In g (filter (fun n => endswith ".md" (name n))
                            (flat_map (fun c => c :: descendants c) entries))).
  { apply filter_In. split.
    - apply in_flat_map. exists g. split; [exact Hin | now left].
    - now rewrite Hn. }
  intros E. rewrite E in Hg. destruct Hg.
Qed.

(** X8.  In the basic metrics, no markdown file means no word and no
    glossary term, and no entry is counted both as a markdown file and as
    an image, or as two images: markdown files and images together are at
    most the entries below [docs/]. *)
Theorem basic_metrics_consistent (r : repo) :
  (markdown_files (_get_basic_metrics r) = 0 ->
   word_count (_get_basic_metrics r) = 0
   /\ glossary_terms (_get_basic_metrics r) = 0)
  /\ markdown_files (_get_basic_metrics r) + images (_get_basic_metrics r)
     <= List.length (docs_entries r).
Proof.
  unfold _get_basic_metrics, docs_glob, docs_entries, _count_words,
    _count_glossary_terms.
  cbn [markdown_files images word_count glossary_terms].
  destruct (docs r) as [entries|]; [|cbn; split; [split; reflexivity | lia]].
  split.
  - intros H. apply length_zero_iff_nil in H. split.
    + now rewrite H.
    + destruct (child "glossary.md" entries) as [g|] eqn:E; [|reflexivity].
      now apply glossary_is_listed in E.
  - unfold rglob. apply filters_apart; intros x; apply one_extension.
Qed.

(** ** The text report *)

Lemma str_int_inj n n' : str_int n = str_int n' -> n = n'.
Proof.
  unfold str_int. intros H. apply Unsigned.to_uint_inj.
  apply (f_equal NilEmpty.uint_of_string) in H.
  rewrite !NilEmpty.usu in H. now injection H.
Qed.

Lemma digits_of_uint d : all_chars is_digit (NilEmpty.string_of_uint d) = true.
Proof. induction d; cbn; auto. Qed.

Lemma digits_one_line s : all_chars is_digit s = true -> one_line s = true.
Proof.
  unfold one_line. induction s as [|a s IH]; [reflexivity|].
  cbn [all_chars]. intros H. apply andb_true_iff in H as [Ha Hs].
  rewrite (IH Hs), andb_true_r.
  destruct (Ascii.eqb_spec a nl) as [->|]; [discriminate Ha | reflexivity].
Qed.

Lemma one_line_append s t :
  one_line s = true -> one_line t = true -> one_line (s ++ t) = true.
Proof.
  unfold one_line. induction s as [|a s IH]; [auto|].
  cbn [all_chars append]. intros H Ht. apply andb_true_iff in H as [Ha Hs].
  now rewrite Ha, IH.
Qed.

Lemma one_line_int p n : one_line p = true -> one_line (p ++ str_int n) = true.
Proof.
  intros H. apply one_line_append; [exact H|].
  apply digits_one_line, digits_of_uint.
Qed.

Lemma one_line_bool p b :
  one_line p = true -> one_line (p ++ str_of (SBool b)) = true.
Proof. intros H. apply one_line_append; [exact H | now destruct b]. Qed.

Lemma report_lines_one_line m : forallb one_line (report_lines m) = true.
Proof.
  unfold report_lines. cbn [forallb].
  rewrite !one_line_int, !one_line_bool by reflexivity. reflexivity.
Qed.

Lemma split_nl_one_line : forall l rest,
  one_line l = true ->
  split_nl (l ++ String nl rest) = l :: split_nl rest.
Proof.
  unfold one_line. induction l as [|a l IH]; intros rest H.
  - reflexivity.
  - cbn [all_chars] in H. apply andb_true_iff in H as [Ha Hl].
    cbn [append split_nl]. apply negb_true_iff in Ha. rewrite Ha.
    now rewrite (IH _ Hl).
Qed.

Lemma split_nl_last : forall l, one_line l = true -> split_nl l = [l].
Proof.
  unfold one_line. induction l as [|a l IH]; intros H; [reflexivity|].
  cbn [all_chars] in H. apply andb_true_iff in H as [Ha Hl].
  cbn [split_nl]. apply negb_true_iff in Ha. rewrite Ha.
  now rewrite (IH Hl).
Qed.

(** Lines joined and split again are the lines. *)
Lemma split_join : forall ls,
  ls <> [] -> forallb one_line ls = true -> split_nl (join_nl ls) = ls.
Proof.
  induction ls as [|l ls IH]; intros Hne H; [congruence|].
  cbn [forallb] in H. apply andb_true_iff in H as [Hl Hls].
  destruct ls as [|l' ls].
  - cbn. now apply split_nl_last.
  - change (join_nl (l :: l' :: ls))
      with (l ++ String nl (join_nl (l' :: ls)))%string.
    rewrite (split_nl_one_line _ _ Hl), IH; [reflexivity | discriminate | exact Hls].
Qed.

Lemma report_text m : join_nl (report_of m) = join_nl (report_lines m).
Proof. reflexivity. Qed.

(** X10.  The text report has the same 28 lines for every repository:
    the title, the four headings and one line for each metric, with the
    titled key and the value. *)
Theorem report_has_fixed_lines (r : repo) (text : string) :
  generate_report r = Ok text ->
  exists m, analyze r = Ok m
            /\ split_nl text = report_lines m
            /\ List.length (split_nl text) = 28.
Proof.
  unfold generate_report. destruct (analyze r) as [m|]; [|discriminate].
  cbn [bind]. intros [= <-]. exists m. split; [reflexivity|].
  rewrite report_text, split_join;
    [split; reflexivity | discriminate | apply report_lines_one_line].
Qed.

Lemma append_inv_head p : forall x y : string, (p ++ x = p ++ y)%string -> x = y.
Proof.
  induction p as [|a p IH]; intros x y H; [exact H|].
  injection H as H. now apply IH.
Qed.

Lemma str_bool_inj b b' : str_of (SBool b) = str_of (SBool b') -> b = b'.
Proof. destruct b, b'; cbn; congruence. Qed.

Lemma report_of_injective (m m' : metrics_t) :
  join_nl (report_of m) = join_nl (report_of m') -> m = m'.
Proof.
  rewrite !report_text. intros H.
  apply (f_equal split_nl) in H.
  rewrite !split_join in H
    by (discriminate || apply report_lines_one_line).
  unfold report_lines in H.
  injection H as H1 H2 H3 H4 H5 H6 H7 H8 H9 H10 H11 H12 H13 H14 H15 H16.
  repeat match goal with
         | H : (?p ++ _ = ?p ++ _)%string |- _ => apply append_inv_head in H
         end.
  repeat match goal with
         | H : @eq string _ _ |- _ =>
             first [apply str_int_inj in H | apply str_bool_inj in H]
         end.
  destruct m as [[] [] [[] ?] [[] []]], m' as [[] [] [[] ?] [[] []]].
  cbn in *. subst. reflexivity.
Qed.

(** X11.  The text report loses nothing: two repositories with the same
    report have the same metrics. *)
Theorem report_determines_metrics (r r' : repo) (text : string) :
  generate_report r = Ok text ->
  generate_report r' = Ok text ->
  analyze r = analyze r'.
Proof.
  unfold generate_report.
  destruct (analyze r) as [m|]; [|discriminate].
  destruct (analyze r') as [m'|]; [|discriminate].
  cbn [bind]. intros H H'. rewrite <- H' in H. f_equal.
  apply report_of_injective.
  exact (f_equal (fun x => match x with Ok t => t | Raise _ => text end) H).
Qed.

Lemma report_determines_metrics_witness :
  analyze (repo_of_docs []) = analyze (repo_of_config VNone).
Proof.
  exact (report_determines_metrics (repo_of_docs []) (repo_of_config VNone)
                                   _ eq_refl eq_refl).
Defined.

Lemma report_has_fixed_lines_witness :
  exists m, analyze admonition_repo = Ok m
            /\ List.length (report_lines m) = 28.
Proof.
  destruct (report_has_fixed_lines admonition_repo _ eq_refl)
    as (m & Hm & Hl & Hn).
  exists m. split; [exact Hm|]. now rewrite <- Hl.
Defined.

(** ** The two word counters *)

Lemma match_first_char p c prev s :
  first_char p = Some c ->
  startswith (String c EmptyString) s = false ->
  match_here p prev s = None.
Proof.
  destruct p as [|[[| |b| | | |] [| | | |]| | |] p]; try discriminate.
  intros [= ->]. destruct s as [|a s]; [reflexivity|].
  cbn [startswith match_here accepts]. rewrite andb_true_r.
  now intros ->.
Qed.

Lemma sub_from_unchanged p repl c :
  first_char p = Some c ->
  forall s prev, lacks c s = true -> sub_from p repl prev 0 s = s.
Proof.
  intros Hp. unfold lacks.
  induction s as [|a s IH]; intros prev H; [reflexivity|].
  apply negb_true_iff in H. cbn [contains] in H.
  apply orb_false_iff in H as [H1 H2].
  cbn [sub_from]. rewrite (match_first_char _ _ _ _ Hp H1).
  rewrite IH; [reflexivity | now apply negb_true_iff].
Qed.

Lemma sub_unchanged p repl c s :
  first_char p = Some c -> lacks c s = true -> sub p repl s = s.
Proof. intros Hp Hs. unfold sub. now apply sub_from_unchanged with c. Qed.

Lemma words_agree content :
  plain content = true ->
  IbookMetrics.words_in content = TextbookAnalyzer.words_in content.
Proof.
  unfold plain. intros H.
  apply andb_true_iff in H as [H Hf]. apply andb_true_iff in H as [Hb Ht].
  apply negb_true_iff in Hf.
  unfold IbookMetrics.words_in, TextbookAnalyzer.words_in.
  rewrite sub_front_matter. unfold strip_leading_run. rewrite Hf.
  rewrite (sub_unchanged IbookMetrics.re_code_block "" _ _ eq_refl Hb).
  rewrite (sub_unchanged IbookMetrics.re_inline_code "" _ _ eq_refl Hb).
  rewrite (sub_unchanged re_code_block "" _ _ eq_refl Hb).
  rewrite (sub_unchanged re_inline_code "" _ _ eq_refl Hb).
  rewrite (sub_unchanged re_html_tag "" _ _ eq_refl Ht).
  now rewrite split_normalized.
Qed.

Lemma ibook_loop_ok : forall files a n,
  IbookMetrics.count_words_loop a files = Ok n <->
  (forall f, In f files -> exists c, read f = Ok c)
  /\ n = a + list_sum (map (contribution IbookMetrics.words_in) files).
Proof.
  induction files as [|f files IH]; intros a n; cbn [IbookMetrics.count_words_loop].
  - split.
    + intros [= <-]. split; [intros f []|cbn; lia].
    + intros [_ ->]. cbn. f_equal. lia.
  - change (list_sum (map (contribution IbookMetrics.words_in) (f :: files)))
      with (contribution IbookMetrics.words_in f
            + list_sum (map (contribution IbookMetrics.words_in) files)).
    unfold contribution at 1.
    destruct (read f) as [c|e] eqn:E; cbn [bind].
    + rewrite IH. split; intros [Hr ->]; (split; [|lia]).
      * intros g [<-|Hg]; [eauto | auto].
      * intros g Hg. apply Hr. now right.
    + split; [discriminate|]. intros [Hr _].
      destruct (Hr f (or_introl eq_refl)) as [c Hc]. congruence.
Qed.

(** X13.  [count_words_in_markdown] has no [try]: it returns a count
    exactly when every markdown file can be read, and the count is then the
    sum over the files; one file that cannot be read makes it raise, where
    the analyzer passes it over. *)
Theorem ibook_words_raise_or_sum (docs_dir : list node) (n : nat) :
  IbookMetrics.count_words_in_markdown docs_dir = Ok n <->
  (forall f, In f (rglob ".md" docs_dir) -> exists c, read f = Ok c)
  /\ n = list_sum (map (contribution IbookMetrics.words_in)
                       (rglob ".md" docs_dir)).
Proof. unfold IbookMetrics.count_words_in_markdown. apply ibook_loop_ok. Qed.

(** X12.  On documents that can all be read and are prose (no backtick,
    no [<], no three hyphens at the start), [count_words_in_markdown] of
    get-ibook-metrics.py returns the word count of the analyzer. *)
Theorem word_counters_agree_on_prose (r : repo) (docs_dir : list node) :
  docs r = Some docs_dir ->
  (forall f, In f (rglob ".md" docs_dir) ->
             exists c, read f = Ok c /\ plain c = true) ->
  IbookMetrics.count_words_in_markdown docs_dir = Ok (_count_words r).
Proof.
  intros Hd H. apply ibook_loop_ok. split.
  - intros f Hf. destruct (H f Hf) as (c & Hc & _). eauto.
  - unfold _count_words, count_words_loop. rewrite Hd, fold_contribution.
    cbn [Nat.add]. f_equal. apply map_ext_in. intros f Hf.
    destruct (H f Hf) as (c & Hc & Hp). unfold contribution. rewrite Hc.
    symmetry. now apply words_agree.
Qed.

Lemma word_counters_agree_on_prose_witness :
  IbookMetrics.count_words_in_markdown prose_docs
  = Ok (_count_words (repo_of_docs prose_docs)).
Proof.
  apply (word_counters_agree_on_prose (repo_of_docs prose_docs) prose_docs
                                      eq_refl).
  intros f Hin. vm_compute in Hin.
  repeat (destruct Hin as [<-|Hin]; [eexists; split; reflexivity|]).
  destruct Hin.
Defined.

(** ** The two counts of simulations *)

Lemma filter_split {A : Type} (f g : A -> bool) (l : list A) :
  List.length (filter f l)
  = List.length (filter (fun x => f x && g x) l)
    + List.length (filter (fun x => f x && negb (g x)) l).
Proof.
  induction l as [|x l IH]; [reflexivity|]. cbn [filter].
  destruct (f x), (g x); cbn [andb negb List.length]; lia.
Qed.

(** X14.  [count_microsims] of get-ibook-metrics.py counts every
    directory of [docs/sims]: when [sims] is absent or a directory it
    returns the sum of the complexity histogram of the analyzer, which is
    the simulation count of the analyzer plus the directories whose name
    begins with an underscore.  When [sims] is a regular file it raises,
    where the analyzer counts 0. *)
Theorem ibook_microsims_count_all_directories (r : repo) (docs_dir : list node) :
  docs r = Some docs_dir ->
  match child "sims" docs_dir with
  | Some (File _ _) =>
      IbookMetrics.count_microsims docs_dir = Raise OSError
      /\ _count_microsims r = 0
      /\ total (_analyze_microsim_complexity r) = 0
  | _ =>
      IbookMetrics.count_microsims docs_dir
      = Ok (total (_analyze_microsim_complexity r))
      /\ total (_analyze_microsim_complexity r)
         = _count_microsims r
           + count (fun d => is_dir d && startswith "_" (name d))
                   (match sims_dir r with Some ds => ds | None => [] end)
  end.
Proof.
  intros Hd.
  unfold IbookMetrics.count_microsims, _analyze_microsim_complexity,
    _count_microsims, sims_dir, count.
  rewrite Hd.
  destruct (child "sims" docs_dir) as [[nm data|nm cs]|];
    [repeat split | | split; reflexivity].
  cbn [IbookMetrics.iterdir children Py.bind].
  rewrite total_fold_tally. split; [reflexivity|].
  rewrite (filter_split is_dir (fun d => negb (startswith "_" (name d)))).
  change (total {| simple := 0; medium := 0; complex := 0 |}) with 0.
  cbn [Nat.add]. f_equal. f_equal. apply filter_ext. intros x.
  now rewrite negb_involutive.
Qed.

Lemma ibook_microsims_count_all_directories_witness :
  IbookMetrics.count_microsims
    [Dir "sims" [Dir "pendulum" []; Dir "_template" [];
                 File "index.md" (Ok "")]]
  = Ok (total (_analyze_microsim_complexity underscore_repo))
  /\ total (_analyze_microsim_complexity underscore_repo)
     = _count_microsims underscore_repo + 1.
Proof.
  exact (ibook_microsims_count_all_directories underscore_repo _ eq_refl).
Defined.

(** ** Pieces of a split *)

Lemma lacks_cons c a s :
  lacks c (String a s) = negb (Ascii.eqb a c) && lacks c s.
Proof.
  unfold lacks. cbn [contains startswith]. rewrite andb_true_r.
  now rewrite negb_orb.
Qed.

Lemma lacks_append c s t :
  lacks c (s ++ t) = lacks c s && lacks c t.
Proof.
  induction s as [|a s IH]; [reflexivity|].
  cbn [append]. rewrite !lacks_cons, IH. now rewrite andb_assoc.
Qed.

Lemma split_at_cons sep s : exists piece rest, split_at sep s = piece :: rest.
Proof.
  destruct s as [|a s]; cbn [split_at]; [eauto|].
  destruct (Ascii.eqb a sep); [eauto|].
  destruct (split_at sep s); eauto.
Qed.

(** No piece holds the separator. *)
Lemma split_at_pieces sep : forall s, forallb (lacks sep) (split_at sep s) = true.
Proof.
  induction s as [|a s IH]; [reflexivity|]. cbn [split_at].
  destruct (Ascii.eqb a sep) eqn:E.
  - cbn [forallb]. now rewrite IH.
  - destruct (split_at sep s) as [|piece rest]; cbn [forallb] in *.
    + now rewrite lacks_cons, E.
    + apply andb_true_iff in IH as [H1 H2].
      now rewrite lacks_cons, E, H1, H2.
Qed.

Lemma split_at_piece sep : forall piece rest,
  lacks sep piece = true ->
  split_at sep (piece ++ String sep rest) = piece :: split_at sep rest.
Proof.
  induction piece as [|a piece IH]; intros rest H.
  - cbn. now rewrite Ascii.eqb_refl.
  - rewrite lacks_cons in H. apply andb_true_iff in H as [Ha Hp].
    apply negb_true_iff in Ha. cbn [append split_at]. rewrite Ha.
    now rewrite (IH _ Hp).
Qed.

Lemma split_at_last sep : forall piece,
  lacks sep piece = true -> split_at sep piece = [piece].
Proof.
  induction piece as [|a piece IH]; intros H; [reflexivity|].
  rewrite lacks_cons in H. apply andb_true_iff in H as [Ha Hp].
  apply negb_true_iff in Ha. cbn [split_at]. rewrite Ha.
  now rewrite (IH Hp).
Qed.

(** ** Stripping *)

Lemma among_one c a : among (String c EmptyString) a = Ascii.eqb c a.
Proof.
  unfold among. cbn. now rewrite andb_true_r, !orb_false_r.
Qed.

Lemma rstrip_head chars a s :
  rstrip_chars chars (String a s) = EmptyString
  \/ exists t, rstrip_chars chars (String a s) = String a t.
Proof.
  cbn [rstrip_chars].
  destruct (is_empty (rstrip_chars chars s) && among chars a); eauto.
Qed.

Lemma rstrip_append chars : forall x t,
  rstrip_chars chars t <> EmptyString ->
  rstrip_chars chars (x ++ t) = (x ++ rstrip_chars chars t)%string.
Proof.
  induction x as [|a x IH]; intros t H; [reflexivity|].
  cbn [append rstrip_chars]. rewrite (IH _ H).
  destruct (x ++ rstrip_chars chars t)%string as [|b y] eqn:E; [|reflexivity].
  destruct x; [cbn in E; congruence | discriminate].
Qed.

Lemma rstrip_append_empty chars : forall x t,
  rstrip_chars chars t = EmptyString ->
  rstrip_chars chars (x ++ t) = rstrip_chars chars x.
Proof.
  induction x as [|a x IH]; intros t H; [exact H|].
  cbn [append rstrip_chars]. now rewrite (IH _ H).
Qed.

Lemma rstrip_lacks c : forall s,
  lacks c s = true -> rstrip_chars (String c EmptyString) s = s.
Proof.
  induction s as [|a s IH]; intros H; [reflexivity|].
  rewrite lacks_cons in H. apply andb_true_iff in H as [Ha Hs].
  cbn [rstrip_chars]. rewrite (IH Hs), among_one.
  rewrite Ascii.eqb_sym. apply negb_true_iff in Ha. rewrite Ha.
  now rewrite andb_false_r.
Qed.

Lemma lstrip_not_first c a s :
  exists t, lstrip_chars (String c EmptyString) (String a s) = t
            /\ startswith (String c EmptyString) t = false.
Proof.
  revert a. induction s as [|b s IH]; intros a; cbn [lstrip_chars];
    rewrite among_one; destruct (Ascii.eqb c a) eqn:E.
  - eauto.
  - eexists. split; [reflexivity|]. cbn. now rewrite Ascii.eqb_sym, E.
  - apply IH.
  - eexists. split; [reflexivity|]. cbn. now rewrite Ascii.eqb_sym, E.
Qed.

Lemma strip_not_first c s :
  startswith (String c EmptyString) (strip_chars (String c EmptyString) s)
  = false.
Proof.
  unfold strip_chars. destruct s as [|a s]; [reflexivity|].
  destruct (lstrip_not_first c a s) as (t & -> & Ht).
  destruct t as [|b t]; [reflexivity|].
  destruct (rstrip_head (String c EmptyString) b t) as [-> | [u ->]];
    [reflexivity|].
  cbn [startswith] in *. exact Ht.
Qed.

(** ** infer_github_user_repo *)

Lemma startswith_append p s : startswith p (p ++ s) = true.
Proof.
  induction p as [|a p IH]; [reflexivity|].
  cbn [append startswith]. now rewrite Ascii.eqb_refl.
Qed.

Lemma nonempty_lacks_first c s :
  s <> EmptyString -> lacks c s = true ->
  exists a t, s = String a t /\ Ascii.eqb c a = false.
Proof.
  destruct s as [|a t]; [congruence|]. intros _ H.
  rewrite lacks_cons in H. apply andb_true_iff in H as [Ha _].
  exists a, t. split; [reflexivity|].
  rewrite Ascii.eqb_sym. now apply negb_true_iff.
Qed.

(** X15.  [infer_github_user_repo] gives back the user and the repository
    of a [https://github.com/user/repo] address, with or without a path
    after the repository. *)
Theorem infer_reads_github_url (user repo tail : string) :
  user <> EmptyString -> lacks "/" user = true ->
  repo <> EmptyString -> lacks "/" repo = true ->
  tail = EmptyString \/ startswith "/" tail = true ->
  infer_github_user_repo
    (GITHUB_PREFIX ++ user ++ "/" ++ repo ++ tail)
  = Some (user, repo).
Proof.
  intros Hu Lu Hr Lr Ht. unfold infer_github_user_repo.
  rewrite startswith_append, drop_append.
  destruct (nonempty_lacks_first _ _ Hu Lu) as (a & u & -> & Ha).
  assert (Hrepo : rstrip_chars "/" repo = repo) by now apply rstrip_lacks.
  assert (Hstrip : exists tail',
             strip_chars "/" (String a u ++ "/" ++ repo ++ tail)
             = (String a u ++ "/" ++ repo ++ tail')%string
             /\ (tail' = EmptyString \/ startswith "/" tail' = true)).
  { assert (HR : exists tail',
               rstrip_chars "/" (repo ++ tail) = (repo ++ tail')%string
               /\ (tail' = EmptyString \/ startswith "/" tail' = true)).
    { destruct (rstrip_chars "/" tail) as [|b t'] eqn:Et.
      - exists EmptyString. split; [|now left].
        rewrite (rstrip_append_empty _ _ _ Et), Hrepo.
        clear. induction repo; cbn; congruence.
      - exists (String b t'). split.
        + rewrite rstrip_append; rewrite Et; [reflexivity | discriminate].
        + right. destruct Ht as [-> | Ht]; [discriminate Et|].
          destruct tail as [|c tl]; [discriminate|].
          destruct (rstrip_head "/" c tl) as [E | [t E]];
            rewrite E in Et; [discriminate|].
          injection Et as <- _. exact Ht. }
    destruct HR as (tail' & HR & Ht'). exists tail'. split; [|exact Ht'].
    unfold strip_chars. cbn [append lstrip_chars]. rewrite among_one, Ha.
    change (String a (u ++ String "/" (repo ++ tail)))
      with (String a u ++ ("/" ++ (repo ++ tail)))%string.
    assert (Hne : rstrip_chars "/" (repo ++ tail) <> EmptyString).
    { rewrite HR. destruct repo; [congruence | discriminate]. }
    rewrite rstrip_append.
    - rewrite rstrip_append by exact Hne. now rewrite HR.
    - rewrite rstrip_append by exact Hne. discriminate. }
  destruct Hstrip as (tail' & -> & Ht').
  change (String a u ++ "/" ++ repo ++ tail')%string
    with (String a u ++ String "/" (repo ++ tail'))%string.
  rewrite (split_at_piece _ _ _ Lu).
  destruct Ht' as [-> | Ht'].
  - replace (repo ++ "")%string with repo
      by (clear; induction repo; cbn; congruence).
    now rewrite (split_at_last _ _ Lr).
  - destruct tail' as [|c t]; [discriminate|].
    cbn [startswith] in Ht'. rewrite andb_true_r in Ht'.
    apply Ascii.eqb_eq in Ht'. subst c.
    now rewrite (split_at_piece _ _ _ Lr).
Qed.

Lemma infer_reads_github_url_witness :
  infer_github_user_repo
    "https://github.com/dmccreary/microsims/tree/main/"
  = Some ("dmccreary", "microsims").
Proof.
  apply (infer_reads_github_url "dmccreary" "microsims" "/tree/main/");
    try reflexivity; try discriminate.
  now right.
Defined.

(** A piece of a split does not end with a text that holds the
    separator. *)
Lemma endswith_lacks c p : forall s,
  lacks c p = false -> lacks c s = true -> endswith p s = false.
Proof.
  intros s Hp Hs. destruct (endswith p s) eqn:E; [|reflexivity].
  apply endswith_suffix in E as [pre ->].
  rewrite lacks_append, Hp, andb_false_r in Hs. discriminate.
Qed.

Lemma infer_elsewhere (url : string) :
  startswith GITHUB_PREFIX url = false ->
  infer_github_user_repo url = None.
Proof.
  intros H. unfold infer_github_user_repo. rewrite H.
  destruct (contains GITHUB_IO url); [|reflexivity].
  pose proof (split_at_pieces "/" (replace "https://" "" url)) as Hp.
  destruct (split_at "/" (replace "https://" "" url)) as [|host [|repo rest]];
    try reflexivity.
  cbn [forallb] in Hp. apply andb_true_iff in Hp as [Hh _].
  now rewrite (endswith_lacks "/" GITHUB_IO host eq_refl Hh).
Qed.

(** X16.  An address that does not begin with [https://github.com/]
    gives [(None, None)], GitHub Pages addresses too: the host is a piece
    between slashes and cannot end with [.github.io/]. *)
Theorem infer_reads_only_github_urls (url : string) :
  startswith GITHUB_PREFIX url = false ->
  infer_github_user_repo url = None.
Proof. apply infer_elsewhere. Qed.

Lemma infer_reads_only_github_urls_witness :
  infer_github_user_repo "https://dmccreary.github.io/microsims/" = None.
Proof.
  exact (infer_reads_only_github_urls
           "https://dmccreary.github.io/microsims/" eq_refl).
Defined.

(** X17.  When [infer_github_user_repo] gives a pair, the address begins
    with [https://github.com/], the user is not empty, and neither the
    user nor the repository holds a slash. *)
Theorem infer_gives_names (url user repo : string) :
  infer_github_user_repo url = Some (user, repo) ->
  startswith GITHUB_PREFIX url = true
  /\ user <> EmptyString
  /\ lacks "/" user = true
  /\ lacks "/" repo = true.
Proof.
  intros H. destruct (startswith GITHUB_PREFIX url) eqn:E;
    [|rewrite (infer_elsewhere _ E) in H; discriminate].
  split; [reflexivity|].
  unfold infer_github_user_repo in H. rewrite E in H.
  set (path := strip_chars "/" (drop (String.length GITHUB_PREFIX) url)) in H.
  pose proof (split_at_pieces "/" path) as Hp.
  pose proof (strip_not_first "/" (drop (String.length GITHUB_PREFIX) url))
    as Hf. fold path in Hf.
  destruct path as [|a path]; [discriminate H|].
  cbn [split_at] in H, Hp. cbn [startswith] in Hf. rewrite andb_true_r in Hf.
  rewrite Hf in H, Hp.
  destruct (split_at "/" path) as [|piece [|piece' rest]];
    try discriminate H.
  injection H as <- <-. cbn [forallb] in Hp.
  apply andb_true_iff in Hp as [H1 Hp]. apply andb_true_iff in Hp as [H2 _].
  repeat split; [discriminate | exact H1 | exact H2].
Qed.

Lemma infer_gives_names_witness :
  startswith GITHUB_PREFIX "https://github.com/dmccreary/microsims" = true
  /\ "dmccreary" <> EmptyString
  /\ lacks "/" "dmccreary" = true
  /\ lacks "/" "microsims" = true.
Proof.
  exact (infer_gives_names "https://github.com/dmccreary/microsims"
                           "dmccreary" "microsims" eq_refl).
Defined.

(** ** Fenced code and the word count *)

Lemma code_block_match prev s :
  match_here re_code_block prev s =
  if startswith "```" s then after_first "```" (drop 3 s) else None.
Proof.
  unfold re_code_block. rewrite match_lit.
  destruct (startswith "```" s); [|reflexivity].
  cbn [app]. apply star_lazy_any_lit.
Qed.

Lemma sub_code_block_prev repl : forall s k prev prev',
  sub_from re_code_block repl prev k s
  = sub_from re_code_block repl prev' k s.
Proof.
  induction s as [|a s IH]; intros k prev prev'; [reflexivity|].
  cbn [sub_from]. now rewrite !code_block_match.
Qed.

Lemma sub_code_block_prefix repl s : forall pre prev,
  lacks "`" pre = true ->
  sub_from re_code_block repl prev 0 (pre ++ s)
  = (pre ++ sub_from re_code_block repl prev 0 s)%string.
Proof.
  induction pre as [|a pre IH]; intros prev H; [reflexivity|].
  rewrite lacks_cons in H. apply andb_true_iff in H as [Ha Hp].
  apply negb_true_iff in Ha.
  cbn [append sub_from]. rewrite code_block_match.
  cbn [startswith]. rewrite Ha. cbn [andb].
  rewrite (IH _ Hp). f_equal. f_equal. apply sub_code_block_prev.
Qed.

Lemma after_first_here pat s :
  startswith pat s = true ->
  after_first pat s = Some (drop (String.length pat) s).
Proof. intros H. destruct s; cbn [after_first]; now rewrite H. Qed.

(** The first closing fence after a body without backticks is the one
    that follows the body. *)
Lemma after_first_closing pat c q : forall body,
  startswith (String c EmptyString) pat = true ->
  lacks c body = true ->
  after_first pat (body ++ pat ++ q) = Some q.
Proof.
  intros body Hc. induction body as [|a body IH]; intros H.
  - cbn [append]. rewrite after_first_here by apply startswith_append.
    now rewrite drop_append.
  - rewrite lacks_cons in H. apply andb_true_iff in H as [Ha Hb].
    apply negb_true_iff in Ha.
    cbn [append after_first].
    destruct pat as [|b pat]; [discriminate Hc|].
    cbn [startswith] in Hc |- *. rewrite andb_true_r in Hc.
    apply Ascii.eqb_eq in Hc. subst b. rewrite Ha. cbn [andb].
    now apply IH.
Qed.

Lemma sub_code_block_alone body q :
  lacks "`" body = true -> lacks "`" q = true ->
  forall prev,
    sub_from re_code_block "" prev 0 ("```" ++ body ++ "```" ++ q) = q.
Proof.
  intros Hb Hq prev.
  set (s := ("``" ++ body ++ "```" ++ q)%string).
  change ("```" ++ body ++ "```" ++ q)%string with (String "`" s).
  assert (E : match_here re_code_block prev (String "`" s) = Some q).
  { rewrite code_block_match.
    change (startswith "```" (String "`" s)) with true.
    change (drop 3 (String "`" s)) with (body ++ "```" ++ q)%string.
    now apply (after_first_closing "```" "`"%char). }
  pose proof (match_here_suffix _ _ _ _ E) as Hs.
  pose proof (match_here_consumes re_code_block _ _ _ eq_refl E) as Hl.
  cbn [sub_from]. rewrite E.
  destruct (String.length (String "`" s) - String.length q) as [|k] eqn:Ek;
    [lia|].
  rewrite sub_from_skip, (drop_of_match _ _ _ _ Hs Ek).
  cbn [append]. now apply sub_from_unchanged with "`"%char.
Qed.

Lemma startswith_before c pat : forall p t,
  lacks c pat = true ->
  startswith pat (p ++ String c t) = true -> startswith pat p = true.
Proof.
  induction pat as [|a pat IH]; intros p t Hl; [reflexivity|].
  rewrite lacks_cons in Hl. apply andb_true_iff in Hl as [Ha Hp].
  apply negb_true_iff in Ha.
  destruct p as [|b p]; cbn [append startswith].
  - rewrite Ascii.eqb_sym, Ha. discriminate.
  - destruct (Ascii.eqb b a); [|discriminate]. cbn [andb]. now apply IH.
Qed.

Lemma startswith_longer pat : forall p q,
  startswith pat p = true -> startswith pat (p ++ q) = true.
Proof.
  induction pat as [|a pat IH]; intros p q; [reflexivity|].
  destruct p as [|b p]; [discriminate|]. cbn [append startswith].
  destruct (Ascii.eqb b a); [|discriminate]. cbn [andb]. apply IH.
Qed.

(** X9.  A fenced block whose body has no backtick adds no word: between
    two pieces of prose it counts as the two pieces put together. *)
Theorem fenced_code_counts_no_words (p body q : string) :
  plain (p ++ q) = true -> lacks "`" body = true ->
  words_in (p ++ "```" ++ body ++ "```" ++ q) = words_in (p ++ q).
Proof.
  unfold plain. intros H Hb.
  apply andb_true_iff in H as [H Hf]. apply andb_true_iff in H as [Ht Hl].
  apply negb_true_iff in Hf.
  rewrite lacks_append in Ht. apply andb_true_iff in Ht as [Hp Hq].
  unfold words_in.
  rewrite !sub_front_matter. unfold strip_leading_run. rewrite Hf.
  assert (Hf' : startswith "---" (p ++ "```" ++ body ++ "```" ++ q) = false).
  { destruct (startswith "---" (p ++ "```" ++ body ++ "```" ++ q)) eqn:E;
      [|reflexivity].
    apply (startswith_before "`" "---") in E; [|reflexivity].
    now rewrite (startswith_longer _ _ q E) in Hf. }
  rewrite Hf'.
  assert (Hcode : sub re_code_block "" (p ++ "```" ++ body ++ "```" ++ q)
                  = (p ++ q)%string).
  { unfold sub. rewrite (sub_code_block_prefix _ _ _ _ Hp).
    now rewrite (sub_code_block_alone _ _ Hb Hq). }
  rewrite Hcode.
  rewrite (sub_unchanged re_code_block "" "`" (p ++ q) eq_refl)
    by (rewrite lacks_append; now rewrite Hp, Hq).
  reflexivity.
Qed.

Lemma fenced_code_counts_no_words_witness :
  words_in (py "Intro\n```python\nx = 1\n```\nEnd") = words_in (py "Intro\n\nEnd").
Proof.
  exact (fenced_code_counts_no_words
           (py "Intro\n") (py "python\nx = 1\n") (py "\nEnd")
           eq_refl eq_refl).
Defined.

(** ** Glossary terms and heading lines *)

Import MoreGlossary.

Lemma first_line_cons a s :
  first_line (String a s)
  = if Ascii.eqb a nl then EmptyString else String a (first_line s).
Proof.
  unfold first_line. cbn [split_nl].
  destruct (Ascii.eqb a nl); [reflexivity|].
  now destruct (split_nl_cons s) as (l & rest & ->).
Qed.

Lemma line_scan_lines (f : string -> bool) :
  f EmptyString = false ->
  forall s,
    line_scan f true s = count f (split_nl s)
    /\ line_scan f false s = count f (tl (split_nl s)).
Proof.
  intros Hf. unfold count.
  induction s as [|a s [IHt IHf]].
  - cbn. now rewrite Hf.
  - cbn [line_scan andb]. rewrite first_line_cons. cbn [split_nl].
    destruct (Ascii.eqb a nl).
    + rewrite Hf, IHt. cbn [filter tl]. rewrite Hf. split; reflexivity.
    + rewrite IHf. destruct (split_nl_cons s) as (l & rest & E).
      unfold first_line. rewrite E. cbn [hd tl filter].
      split; [|reflexivity].
      destruct (f (String a l)); reflexivity.
Qed.

Lemma line_end_length s : String.length (line_end s) <= String.length s.
Proof.
  induction s as [|a s IH]; [cbn; lia|]. cbn [line_end].
  destruct (Ascii.eqb a nl); cbn [String.length]; lia.
Qed.

Lemma star_dot_eol : forall u prev,
  star_greedy CDot (match_here [EOL]) prev u = Some (line_end u).
Proof.
  induction u as [|a u IH]; intros prev; [reflexivity|].
  cbn [star_greedy accepts line_end match_here].
  destruct (Ascii.eqb a nl); cbn [negb]; [reflexivity|]. now rewrite IH.
Qed.

Lemma lstrip_head s a u : lstrip s = String a u -> isspace a = false.
Proof.
  induction s as [|b s IH]; [discriminate|]. cbn [lstrip].
  destruct (isspace b) eqn:E; [exact IH|]. now intros [= <- _].
Qed.

Lemma star_space_heading : forall t prev,
  star_greedy CSpace
    (match_here [Chr CNonSpace Once; Chr CDot Star; EOL]) prev t
  = match lstrip t with
    | EmptyString => None
    | String _ u => Some (line_end u)
    end.
Proof.
  induction t as [|a t IH]; intros prev; [reflexivity|].
  cbn [star_greedy accepts lstrip].
  destruct (isspace a) eqn:E.
  - rewrite IH. destruct (lstrip t); [|reflexivity].
    cbn [match_here accepts]. now rewrite E.
  - cbn [match_here accepts]. rewrite E. cbn [negb]. apply star_dot_eol.
Qed.

Lemma glossary_match prev s :
  match_here re_glossary_term prev s =
  if at_bol prev && startswith "####" s then heading_rest (drop 4 s)
  else None.
Proof.
  unfold re_glossary_term. cbn [match_here at_bol].
  assert (H : match_here
                (lit "####" ++ [Chr CSpace Plus; Chr CNonSpace Once;
                                Chr CDot Star; EOL]) prev s
              = if startswith "####" s then heading_rest (drop 4 s) else None).
  { rewrite match_lit. destruct (startswith "####" s); [|reflexivity].
    change (String.length "####") with 4.
    unfold heading_rest. cbn [match_here].
    destruct (drop 4 s) as [|w t]; [reflexivity|]. cbn [accepts].
    destruct (isspace w); [apply star_space_heading | reflexivity]. }
  destruct prev as [a|]; cbn [at_bol andb]; [|exact H].
  destruct (Ascii.eqb a nl); cbn [andb]; [exact H | reflexivity].
Qed.

Lemma isspace_nl a : Ascii.eqb a nl = true -> isspace a = true.
Proof. intros H. apply Ascii.eqb_eq in H. now subst a. Qed.

(** When the first line has a character that is not whitespace, the
    whitespace at the start of the text ends on that line. *)
Lemma lstrip_on_line : forall t,
  is_empty (lstrip (first_line t)) = false ->
  is_empty (lstrip t) = false /\ line_end (lstrip t) = line_end t.
Proof.
  induction t as [|a t IH]; [discriminate|].
  rewrite first_line_cons. cbn [lstrip line_end].
  destruct (Ascii.eqb a nl) eqn:En; [discriminate|].
  cbn [lstrip]. destruct (isspace a); [exact IH|].
  intros _. cbn [line_end]. now rewrite En.
Qed.

Lemma heading_on_line t :
  is_empty (lstrip (first_line t)) = false ->
  heading_rest t
  = if match first_line t with
       | EmptyString => false
       | String a rest => isspace a && negb (is_empty (lstrip rest))
       end
    then Some (line_end t) else None.
Proof.
  destruct t as [|w t]; [discriminate|].
  rewrite first_line_cons. cbn [heading_rest line_end].
  destruct (Ascii.eqb w nl) eqn:En; [discriminate|].
  cbn [lstrip]. destruct (isspace w) eqn:Ew; [|reflexivity].
  intros H. rewrite H. cbn [negb andb].
  destruct (lstrip_on_line _ H) as [Hne He].
  destruct (lstrip t) as [|x u] eqn:El; [discriminate|].
  rewrite <- He. cbn [line_end].
  destruct (Ascii.eqb x nl) eqn:Ex; [|reflexivity].
  apply isspace_nl in Ex. now rewrite (lstrip_head _ _ _ El) in Ex.
Qed.

Lemma first_line_after_hashes s :
  startswith "####" s = true ->
  first_line s = ("####" ++ first_line (drop 4 s))%string
  /\ line_end s = line_end (drop 4 s).
Proof.
  do 4 (destruct s as [|? s]; [discriminate|];
        cbn [startswith];
        match goal with
        | |- context [Ascii.eqb ?a "#"] =>
            destruct (Ascii.eqb_spec a "#"); [subst a|discriminate]
        end).
  intros _. rewrite !first_line_cons. cbn. split; reflexivity.
Qed.

Lemma heading_here s :
  startswith "####" s = true ->
  bare_heading (first_line s) = false ->
  heading_rest (drop 4 s)
  = if is_term_heading (first_line s) then Some (line_end s) else None.
Proof.
  intros Hs Hb. destruct (first_line_after_hashes _ Hs) as [Hf He].
  unfold bare_heading, is_term_heading in *. rewrite Hf in *.
  change (startswith "####" ("####" ++ first_line (drop 4 s))) with true
    in *.
  change (drop 4 ("####" ++ first_line (drop 4 s)))
    with (first_line (drop 4 s)) in *.
  cbn [andb] in *. rewrite He. now apply heading_on_line.
Qed.

Lemma no_heading_here s :
  startswith "####" s = false -> is_term_heading (first_line s) = false.
Proof.
  intros H. unfold is_term_heading.
  now rewrite <- (startswith_first_line "####" eq_refl), H.
Qed.

Lemma findall_glossary : forall s,
  (forall prev,
      line_scan bare_heading (at_bol prev) s = 0 ->
      List.length (findall_from re_glossary_term prev 0 s)
      = line_scan is_term_heading (at_bol prev) s)
  /\ (forall prev k,
         k = String.length s - String.length (line_end s) ->
         line_scan bare_heading false s = 0 ->
         List.length (findall_from re_glossary_term prev k s)
         = line_scan is_term_heading false s).
Proof.
  induction s as [|a s [IHp IHq]]; [split; intros; now destruct k || reflexivity|].
  assert (P : forall prev,
             line_scan bare_heading (at_bol prev) (String a s) = 0 ->
             List.length (findall_from re_glossary_term prev 0 (String a s))
             = line_scan is_term_heading (at_bol prev) (String a s)).
  { intros prev Hb. cbn [findall_from line_scan] in *.
    rewrite glossary_match.
    change (at_bol (Some a)) with (Ascii.eqb a nl) in IHp.
    assert (Hb' : line_scan bare_heading (Ascii.eqb a nl) s = 0) by lia.
    destruct (at_bol prev); cbn [andb] in *.
    - destruct (startswith "####" (String a s)) eqn:Es.
      + destruct (bare_heading (first_line (String a s))) eqn:Eb; [lia|].
        rewrite (heading_here _ Es Eb).
        destruct (is_term_heading (first_line (String a s))).
        * assert (Ha : Ascii.eqb a nl = false).
          { cbn [startswith] in Es.
            destruct (Ascii.eqb_spec a "#"); [now subst a | discriminate]. }
          rewrite Ha in *. cbn [line_end]. rewrite Ha.
          pose proof (line_end_length s) as Hl.
          change (String.length (String a s)) with (S (String.length s)).
          replace (S (String.length s) - String.length (line_end s))
            with (S (String.length s - String.length (line_end s))) by lia.
          cbn [List.length Nat.add]. f_equal. now apply IHq.
        * now apply (IHp (Some a)).
      + rewrite (no_heading_here _ Es). now apply (IHp (Some a)).
    - now apply (IHp (Some a)). }
  split; [exact P|]. clear P.
  intros prev k Hk Hb. cbn [line_end] in Hk.
  destruct (Ascii.eqb a nl) eqn:Ha.
  - replace k with 0 in * by lia.
    cbn [findall_from line_scan andb] in *. rewrite glossary_match.
    assert (Es : startswith "####" (String a s) = false).
    { cbn [startswith]. apply Ascii.eqb_eq in Ha. now subst a. }
    rewrite Es, andb_false_r. rewrite Ha in *.
    specialize (IHp (Some a)). cbn [at_bol] in IHp. rewrite Ha in IHp.
    cbn [Nat.add] in *. now apply IHp.
  - pose proof (line_end_length s) as Hl.
    change (String.length (String a s)) with (S (String.length s)) in Hk.
    replace k with (S (String.length s - String.length (line_end s)))
      by lia.
    cbn [findall_from line_scan andb] in *. rewrite Ha in *.
    now apply IHq.
Qed.

(** X20.  For a glossary with no line of four [#] followed by whitespace
    only, [_count_glossary_terms] is the number of lines made of four
    [#], whitespace, and then a character that is not whitespace. *)
Theorem glossary_terms_are_heading_lines (content : string) :
  existsb bare_heading (split_nl content) = false ->
  _count_glossary_terms (glossary_repo content)
  = term_heading_lines content.
Proof.
  intros H.
  change (_count_glossary_terms (glossary_repo content))
    with (List.length (findall re_glossary_term content)).
  unfold findall, term_heading_lines.
  rewrite <- (proj1 (line_scan_lines is_term_heading eq_refl content)).
  apply (proj1 (findall_glossary content) None).
  cbn [at_bol].
  rewrite (proj1 (line_scan_lines bare_heading eq_refl content)).
  unfold count. clear -H.
  induction (split_nl content) as [|l ls IH]; [reflexivity|].
  cbn [existsb filter] in *. apply orb_false_iff in H as [-> H]. now apply IH.
Qed.

Lemma glossary_terms_are_heading_lines_witness :
  _count_glossary_terms
    (glossary_repo (py "# Glossary\n\n#### Alpha\nfirst\n##### Five\n####x\n#### Beta\n"))
  = 2.
Proof.
  exact (glossary_terms_are_heading_lines
           (py "# Glossary\n\n#### Alpha\nfirst\n##### Five\n####x\n#### Beta\n")
           eq_refl).
Defined.

Import Sites JsonToCsv.

(** ** Rows of the catalog *)

Lemma site_data_done entry row :
  site_data entry = Done row ->
  readable_entry entry = true /\ map fst row = fieldnames.
Proof.
  unfold site_data, readable_entry.
  destruct entry as [| | | | |d]; try discriminate.
  cbn [getitem]. destruct (lookup "site" d) as [site|]; [|discriminate].
  cbn [then_]. destruct site as [| | | | |s]; try discriminate.
  cbn [get].
  repeat match goal with
         | |- context [lookup ?k s] => destruct (lookup k s)
         end;
    cbn [then_]; intros [= <-]; split; reflexivity.
Qed.

Lemma site_data_readable entry :
  readable_entry entry = true -> exists row, site_data entry = Done row.
Proof.
  unfold site_data, readable_entry.
  destruct entry as [| | | | |d]; try discriminate.
  cbn [getitem]. destruct (lookup "site" d) as [site|]; [|discriminate].
  cbn [then_]. destruct site as [| | | | |s]; try discriminate.
  intros _. cbn [get].
  repeat match goal with
         | |- context [lookup ?k s] => destruct (lookup k s)
         end;
    cbn [then_]; eauto.
Qed.

Lemma extract_loop_done : forall sites acc rows,
  extract_loop acc sites = Done rows ->
  exists new,
    rows = acc ++ new
    /\ List.length new = List.length sites
    /\ Forall (fun row => map fst row = fieldnames) new
    /\ forallb readable_entry sites = true.
Proof.
  induction sites as [|entry sites IH]; intros acc rows; cbn [extract_loop].
  - intros [= <-]. exists []. rewrite app_nil_r. repeat split. constructor.
  - destruct (site_data entry) as [row|] eqn:E; [|discriminate].
    cbn [then_]. intros H.
    destruct (IH _ _ H) as (new & -> & Hl & Hf & Hr).
    apply site_data_done in E as [Er Ek].
    exists (row :: new). rewrite <- app_assoc. cbn [app List.length forallb].
    rewrite Hl, Er, Hr. repeat split. now constructor.
Qed.

Lemma wrong_fields_none row : map fst row = fieldnames -> wrong_fields row = [].
Proof. unfold wrong_fields. now intros ->. Qed.

(** X18.  [extract_site_data] gives one row for each entry, and the keys
    of every row are the field names of [write_csv_file], in their order:
    no row has a key the CSV writer would refuse. *)
Theorem extract_rows_fit_header (sites : list value)
  (rows : list (list (string * value))) :
  extract_site_data sites = Done rows ->
  List.length rows = List.length sites
  /\ Forall (fun row => map fst row = fieldnames /\ wrong_fields row = [])
            rows.
Proof.
  intros H. destruct (extract_loop_done _ _ _ H) as (new & -> & Hl & Hf & _).
  cbn [app]. split; [exact Hl|].
  eapply Forall_impl; [|exact Hf].
  intros row Hk. split; [exact Hk | now apply wrong_fields_none].
Qed.

(** X19.  [extract_site_data] returns rows exactly when every entry is a
    mapping whose [site] is a mapping; any other entry makes it raise. *)
Theorem extract_reads_dict_entries (sites : list value) :
  (exists rows, extract_site_data sites = Done rows)
  <-> forallb readable_entry sites = true.
Proof.
  unfold extract_site_data. split.
  - intros [rows H]. now destruct (extract_loop_done _ _ _ H) as (? & _ & _ & _ & ?).
  - generalize (@nil (list (string * value))).
    induction sites as [|entry sites IH]; intros acc H; cbn [extract_loop].
    + eauto.
    + cbn [forallb] in H. apply andb_true_iff in H as [He Hs].
      destruct (site_data_readable _ He) as [row ->]. cbn [then_].
      now apply IH.
Qed.

Lemma extract_rows_fit_header_witness :
  exists rows,
    extract_site_data catalog = Done rows
    /\ List.length rows = 2
    /\ Forall (fun row => map fst row = fieldnames /\ wrong_fields row = [])
              rows.
Proof.
  eexists. split; [reflexivity|].
  exact (extract_rows_fit_header catalog _ eq_refl).
Defined.
